(** * The cart and order workflow of src/lib/supabase.ts

    A shallow embedding of the storefront's data layer: the local cart kept
    in [localStorage], the reads of the remote catalogue and the
    order-creation sequence, followed by the properties proved of them.

    Conventions of the model.
    - A JavaScript [number] (a price, a quantity, an amount) is a binary64
      floating-point number, [float], with its rounding, its infinities and
      NaN; [Date.now()] and timestamps, which are whole numbers of
      milliseconds, are integers, [Z].
    - An [async] function is run to completion, one call at a time; it is a
      function from the state of the world to a completion (a value or a
      thrown exception) and the state it leaves behind.
    - The remote tables are lists of rows; a row is kept as the object
      handed to [insert].  What the browser, the network and the database
      decide by themselves (a refused write, a failing request, a generated
      key, the time of day) is read from an [Env] passed to each call.
    - The text held by the local slot is represented by what [JSON.parse]
      makes of it; [JSON.stringify] writes a number that is not finite as
      [null] and negative zero as [0].
    - Delays ([setTimeout] in [getCartItems]) and console output are left
      out. *)

From Stdlib Require Import ZArith List String Bool Lia DecimalString.
From Stdlib Require Import Sorted Permutation Floats.
Import ListNotations.
Open Scope Z_scope.
Open Scope string_scope.
Open Scope list_scope.

(** ** Numbers *)

Definition number : Type := float.

(** [ToNumber] of a field that holds a number or [null]. *)
Definition to_number (v : option number) : number :=
  match v with
  | Some x => x
  | None => 0%float
  end.

(** [x || 0]: zero, negative zero and NaN are falsy. *)
Definition or_zero (x : number) : number :=
  if PrimFloat.is_nan x || PrimFloat.is_zero x then 0%float else x.

(** A number after [JSON.stringify] and [JSON.parse]: [null] for NaN and
    the infinities, [0] for negative zero, the number itself otherwise. *)
Definition json_number (x : number) : option number :=
  if PrimFloat.is_finite x then
    Some (if PrimFloat.is_zero x then 0%float else x)
  else None.

(** ** Data model (lines 10-39, 205-253) *)

Record Category := mkCategory {
  cat_id : string;
  cat_name : string;
  cat_slug : string;
  cat_image_url : option string
}.

(** [Product]: the fields this module reads or hands to the search
    library.  [category] is the joined category, absent on a bare row. *)
Record Product := mkProduct {
  p_id : string;
  p_name : string;
  p_price : number;
  p_images : list string;
  p_category : option Category;
  p_category_id : option string;
  p_description : option string;
  p_highlights : list string
}.

(** [quantity] is [None] when the field holds [null], which is what a
    quantity that was not finite reads as after it went through the slot. *)
Record CartItem := mkCartItem {
  ci_id : string;
  ci_product_id : string;
  ci_quantity : option number;
  ci_product : option Product
}.

Record ShippingAddress := mkShippingAddress {
  sa_name : string;
  sa_phone : string;
  sa_address : string;
  sa_city : string;
  sa_state : string;
  sa_pincode : string
}.

Record PaymentDetails := mkPaymentDetails {
  pd_method : string;
  pd_status : string;
  pd_transactionId : option string
}.

Inductive OrderStatus := pending | processing | shipped | delivered | cancelled.

(** A row of [order_items] as this module writes it (the key the database
    adds to it is not read here). *)
Record OrderItem := mkOrderItem {
  oi_order_id : string;
  oi_product_id : string;
  oi_product_name : string;
  oi_product_image : option string;
  oi_price : number;
  oi_quantity : option number
}.

Record Order := mkOrder {
  o_id : string;
  o_created_at : Z;
  o_order_number : string;
  o_shipping_name : string;
  o_shipping_phone : string;
  o_shipping_address : string;
  o_shipping_city : string;
  o_shipping_state : string;
  o_shipping_pincode : string;
  o_subtotal : number;
  o_shipping_cost : number;
  o_total : number;
  o_status : OrderStatus;
  o_payment_method : string;
  o_payment_status : string;
  o_transaction_id : option string;
  o_order_items : option (list OrderItem)
}.

Inductive NotificationStatus := n_pending | n_sent | n_failed.

Record NotificationItem := mkNotificationItem {
  ni_name : string;
  ni_qty : option number;
  ni_price : number
}.

Record Notification := mkNotification {
  n_user_id : option string;
  n_email : string;
  n_type : string;
  n_order_id : string;
  n_content_order_number : string;
  n_content_total : number;
  n_content_items : option (list NotificationItem);
  n_status : NotificationStatus
}.

(** ** Completions *)

Inductive Exn :=
  | Error (msg : string)
  | TypeError
  | SyntaxError.

Inductive Result (A : Type) :=
  | Ok (a : A)
  | Throw (e : Exn).
Arguments Ok {A} a.
Arguments Throw {A} e.

(** ** The persistent local slot (line 42) *)

(** What [JSON.parse] can return for the slot: a scalar, or an array of
    cart items.  (Arrays of anything else, and objects, are outside the
    model.) *)
Inductive JsonValue :=
  | JNull
  | JBool (b : bool)
  | JNumber (n : Z)
  | JString (s : string)
  | JCart (items : list CartItem).

(** A text of the slot: the empty string, a text [JSON.parse] rejects, or
    the text of a value. *)
Inductive StoredText :=
  | EmptyText
  | NotJson
  | JsonText (v : JsonValue).

Record Remote := mkRemote {
  categories : list Category;
  products : list Product;
  orders : list Order;
  order_items : list OrderItem;
  notifications : list Notification
}.

(** The state: the slot [flipkart_cart] of [localStorage] ([None] when the
    key is not set) and the remote tables. *)
Record World := mkWorld {
  slot : option StoredText;
  remote : Remote
}.

(** What a call takes from its surroundings. *)
Record Env := mkEnv {
  now : Z;                              (* Date.now() *)
  setItem_fails : bool;                 (* localStorage.setItem throws *)
  categories_select_fails : bool;       (* getCategories *)
  slug_select_fails : bool;             (* the slug lookup of getProducts *)
  products_select_fails : bool;         (* the products query of getProducts *)
  product_select_fails : string -> bool; (* getProduct, per id *)
  order_insert_fails : bool;
  new_order_id : string;                (* the key the database gives the order *)
  new_created_at : Z;                   (* and its creation time *)
  items_insert_fails : bool;
  notification_insert_fails : bool;
  order_select_fails : bool;            (* getOrder *)
  orders_select_fails : bool            (* getOrders *)
}.

(** ** A state and exception monad for the async functions *)

Definition M (A : Type) : Type := World -> Result A * World.

Definition ret {A} (a : A) : M A := fun w => (Ok a, w).
Definition throw {A} (e : Exn) : M A := fun w => (Throw e, w).
Definition bind {A B} (m : M A) (k : A -> M B) : M B :=
  fun w => match m w with
           | (Ok a, w') => k a w'
           | (Throw e, w') => (Throw e, w')
           end.
Definition lift {A} (r : Result A) : M A := fun w => (r, w).
Definition get_world : M World := fun w => (Ok w, w).

Notation "x <- m ;; k" := (bind m (fun x => k))
  (at level 61, m at next level, right associativity).
Notation "m ;;; k" := (bind m (fun _ => k))
  (at level 61, right associativity).

(** [Array.prototype.map] with a callback that can throw: the first throw
    ends the loop. *)
Fixpoint map_result {A B} (f : A -> Result B) (l : list A) : Result (list B) :=
  match l with
  | [] => Ok []
  | x :: xs =>
      match f x with
      | Throw e => Throw e
      | Ok y =>
          match map_result f xs with
          | Throw e => Throw e
          | Ok ys => Ok (y :: ys)
          end
      end
  end.

(** ** Local cart store (lines 44-59) *)

(** A string is falsy exactly when it is empty. *)
Definition truthy (t : StoredText) : bool :=
  match t with EmptyText => false | _ => true end.

(** [JSON.parse]: throws a [SyntaxError] on a text that is not JSON (the
    empty text is not). *)
Definition JSON_parse (t : StoredText) : Result JsonValue :=
  match t with
  | JsonText v => Ok v
  | EmptyText | NotJson => Throw SyntaxError
  end.

Definition try_catch {A} (body : Result A) (handler : Exn -> Result A) : Result A :=
  match body with
  | Ok a => Ok a
  | Throw e => handler e
  end.

Definition getCartFromStorage (w : World) : Result JsonValue :=
  try_catch
    (match slot w with
     | Some stored => if truthy stored then JSON_parse stored else Ok (JCart [])
     | None => Ok (JCart [])
     end)
    (fun _ => Ok (JCart [])).

(** [JSON.stringify(cart)], read through [JSON.parse]: the quantities are
    written as JSON writes numbers.  (A product carried by an item came out
    of [JSON.parse] and is written back as it was read.) *)
Definition json_item (item : CartItem) : CartItem :=
  mkCartItem (ci_id item) (ci_product_id item)
    (match ci_quantity item with
     | Some x => json_number x
     | None => None
     end)
    (ci_product item).

Definition JSON_stringify (cart : list CartItem) : list CartItem :=
  map json_item cart.

(** [localStorage.setItem(CART_STORAGE_KEY, text)]: throws when the browser
    refuses the write. *)
Definition setItem (e : Env) (cart : list CartItem) (w : World) : Result World :=
  if setItem_fails e then Throw (Error "QuotaExceededError")
  else Ok (mkWorld (Some (JsonText (JCart cart))) (remote w)).

(** Lines 53-59: a refused write is logged and the slot stays as it was. *)
Definition saveCartToStorage (e : Env) (cart : list CartItem) : M unit :=
  fun w =>
    match setItem e (JSON_stringify cart) w with
    | Ok w' => (Ok tt, w')
    | Throw error => (Ok tt, w)
    end.

(** A method of [Array.prototype] ([find], [filter], [map]) called on what
    the store returned: a [TypeError] when that is not an array. *)
Definition as_array (v : JsonValue) : Result (list CartItem) :=
  match v with
  | JCart items => Ok items
  | _ => Throw TypeError
  end.

(** [cart.length]: the property of an array or of a string, [undefined]
    ([None]) on a number or a boolean, a [TypeError] on [null]. *)
Definition js_length (v : JsonValue) : Result (option Z) :=
  match v with
  | JCart items => Ok (Some (Z.of_nat (List.length items)))
  | JString s => Ok (Some (Z.of_nat (String.length s)))
  | JNull => Throw TypeError
  | JBool _ | JNumber _ => Ok None
  end.

Definition read_cart : M JsonValue := fun w => (getCartFromStorage w, w).

(** ** Remote catalogue (lines 63-136) *)

(** [.single()]: the one row of the answer; an error (no data) when the
    answer has no row or several. *)
Definition single {A} (rows : list A) : option A :=
  match rows with
  | [row] => Some row
  | _ => None
  end.

(** The embedded select of the category (the [category:categories] part of
    the query): the row with its category, found through the foreign key
    [category_id]. *)
Definition join_category (cats : list Category) (p : Product) : Product :=
  mkProduct (p_id p) (p_name p) (p_price p) (p_images p)
    (match p_category_id p with
     | Some cid => find (fun c => cat_id c =? cid) cats
     | None => None
     end)
    (p_category_id p) (p_description p) (p_highlights p).

Definition select_products (r : Remote) : list Product :=
  map (join_category (categories r)) (products r).

Definition getCategories (e : Env) : M (list Category) :=
  fun w =>
    if categories_select_fails e then (Ok [], w)
    else (Ok (categories (remote w)), w).

(** The slug lookup of [getProducts] (line 81): [data] of the answer. *)
Definition select_category_by_slug (e : Env) (r : Remote) (categorySlug : string)
  : option Category :=
  if slug_select_fails e then None
  else single (filter (fun c => cat_slug c =? categorySlug) (categories r)).

Definition has_category (cid : string) (p : Product) : bool :=
  match p_category_id p with
  | Some c => c =? cid
  | None => false
  end.

Definition nonempty (s : string) : bool := negb (s =? "").

Section Search.

(** [new Fuse(result, fuseOptions).search(searchQuery)] mapped to its
    items: the ranking is the library's. *)
Variable fuse_search : list Product -> string -> list Product.

Definition getProducts (categorySlug searchQuery : string) (e : Env)
  : M (list Product) :=
  fun w =>
    let r := remote w in
    let query :=
      if nonempty categorySlug && negb (categorySlug =? "all") then
        match select_category_by_slug e r categorySlug with
        | Some catData => filter (has_category (cat_id catData)) (select_products r)
        | None => select_products r
        end
      else select_products r in
    if products_select_fails e then (Ok [], w)
    else
      let result := map (fun item => item) query in
      if nonempty searchQuery then (Ok (fuse_search result searchQuery), w)
      else (Ok result, w).

End Search.

Definition getProduct (id : string) (e : Env) (w : World) : option Product :=
  if product_select_fails e id then None
  else single (filter (fun p => p_id p =? id) (select_products (remote w))).

(** ** Cart functions (lines 139-203) *)

Definition with_product (item : CartItem) (product : option Product) : CartItem :=
  mkCartItem (ci_id item) (ci_product_id item) (ci_quantity item) product.

Definition with_quantity (item : CartItem) (quantity : number) : CartItem :=
  mkCartItem (ci_id item) (ci_product_id item) (Some quantity) (ci_product item).

Definition getCartItems (e : Env) : M (list CartItem) :=
  cart <- read_cart ;;
  items <- lift (as_array cart) ;;
  w <- get_world ;;
  ret (map (fun item => with_product item (getProduct (ci_product_id item) e w)) items).

(** An assignment to a field of the object [find] returned: the first
    element that satisfies [test] is changed in place. *)
Fixpoint mutate_first (test : CartItem -> bool) (f : CartItem -> CartItem)
  (cart : list CartItem) : list CartItem :=
  match cart with
  | [] => []
  | item :: rest =>
      if test item then f item :: rest
      else item :: mutate_first test f rest
  end.

Definition show_Z (z : Z) : string := NilZero.string_of_int (Z.to_int z).

Definition addToCart (productId : string) (quantity : number) (e : Env)
  : M (list CartItem) :=
  cart <- read_cart ;;
  items <- lift (as_array cart) ;;
  let is_product := fun item => ci_product_id item =? productId in
  saveCartToStorage e
    (match find is_product items with
     | Some _ =>
         mutate_first is_product
           (fun existingItem =>
              with_quantity existingItem
                (PrimFloat.add (to_number (ci_quantity existingItem)) quantity))
           items
     | None => items ++ [mkCartItem (show_Z (now e)) productId (Some quantity) None]
     end) ;;;
  getCartItems e.

Definition updateCartItemQuantity (itemId : string) (quantity : number) (e : Env)
  : M (list CartItem) :=
  cart <- read_cart ;;
  items <- lift (as_array cart) ;;
  let is_item := fun i => ci_id i =? itemId in
  match find is_item items with
  | Some _ =>
      if PrimFloat.leb quantity 0%float then
        saveCartToStorage e (filter (fun i => negb (ci_id i =? itemId)) items)
      else
        saveCartToStorage e
          (mutate_first is_item (fun item => with_quantity item quantity) items)
  | None => ret tt
  end ;;;
  getCartItems e.

Definition removeFromCart (itemId : string) (e : Env) : M (list CartItem) :=
  cart <- read_cart ;;
  items <- lift (as_array cart) ;;
  saveCartToStorage e (filter (fun i => negb (ci_id i =? itemId)) items) ;;;
  getCartItems e.

Definition clearCart (e : Env) : M unit := saveCartToStorage e [].

(** ** Orders and notifications (lines 255-380) *)

Definition set_orders (os : list Order) (w : World) : World :=
  let r := remote w in
  mkWorld (slot w)
    (mkRemote (categories r) (products r) os (order_items r) (notifications r)).

Definition set_order_items (ois : list OrderItem) (w : World) : World :=
  let r := remote w in
  mkWorld (slot w)
    (mkRemote (categories r) (products r) (orders r) ois (notifications r)).

Definition set_notifications (ns : list Notification) (w : World) : World :=
  let r := remote w in
  mkWorld (slot w)
    (mkRemote (categories r) (products r) (orders r) (order_items r) ns).

(** [from('orders').insert(row).select().single()]: the stored row, or no
    data with an error. *)
Definition orders_insert (e : Env) (row : Order) : World -> option Order * World :=
  fun w =>
    if order_insert_fails e then (None, w)
    else (Some row, set_orders (orders (remote w) ++ [row]) w).

(** [from('order_items').insert(rows)]: [true] stands for an error. *)
Definition order_items_insert (e : Env) (rows : list OrderItem)
  : World -> bool * World :=
  fun w =>
    if items_insert_fails e then (true, w)
    else (false, set_order_items (order_items (remote w) ++ rows) w).

Definition notifications_insert (e : Env) (row : Notification)
  : World -> bool * World :=
  fun w =>
    if notification_insert_fails e then (true, w)
    else (false, set_notifications (notifications (remote w) ++ [row]) w).

Definition sendOrderNotification (email : string) (order : Order)
  (userId : option string) (e : Env) : M unit :=
  fun w =>
    let row :=
      mkNotification userId email "order_confirmation" (o_id order)
        (o_order_number order) (o_total order)
        (option_map
           (map (fun i => mkNotificationItem (oi_product_name i) (oi_quantity i) (oi_price i)))
           (o_order_items order))
        n_pending in
    match notifications_insert e row w with
    | (true, w') => (Throw (Error "Failed to record notification"), w')
    | (false, w') => (Ok tt, w')
    end.

(** [Number(item.product?.price || 0)] *)
Definition price_or_zero (item : CartItem) : number :=
  match ci_product item with
  | Some product => or_zero (p_price product)
  | None => 0%float
  end.

(** The callback of line 331: [item.product!] is not checked, reading a
    field of an absent product is a [TypeError]. *)
Definition order_item_of (order : Order) (item : CartItem) : Result OrderItem :=
  match ci_product item with
  | Some product =>
      Ok (mkOrderItem (o_id order) (ci_product_id item) (p_name product)
            (hd_error (p_images product)) (p_price product) (ci_quantity item))
  | None => Throw TypeError
  end.

(** Line 383. *)
Definition getCartItemsFromStorage (w : World) : Result JsonValue :=
  getCartFromStorage w.

Definition is_zero (len : option Z) : bool :=
  match len with
  | Some n => (n =? 0)%Z
  | None => false
  end.

Definition createOrder (shippingAddress : ShippingAddress)
  (paymentDetails : PaymentDetails) (e : Env) : M Order :=
  cart <- (fun w => (getCartItemsFromStorage w, w)) ;;
  len <- lift (js_length cart) ;;
  if is_zero len then throw (Error "Cart is empty")
  else
    cartItems <- getCartItems e ;;
    let subtotal :=
      fold_left
        (fun sum item =>
           PrimFloat.add sum
             (PrimFloat.mul (price_or_zero item) (to_number (ci_quantity item))))
        cartItems 0%float in
    let shipping_cost :=
      if PrimFloat.ltb 500%float subtotal then 0%float else 40%float in
    let total := PrimFloat.add subtotal shipping_cost in
    let orderNumber := ("ORD-" ++ show_Z (now e))%string in
    fun w =>
      match
        orders_insert e
          (mkOrder (new_order_id e) (new_created_at e) orderNumber
             (sa_name shippingAddress) (sa_phone shippingAddress)
             (sa_address shippingAddress) (sa_city shippingAddress)
             (sa_state shippingAddress) (sa_pincode shippingAddress)
             subtotal shipping_cost total pending
             (pd_method paymentDetails) (pd_status paymentDetails)
             (pd_transactionId paymentDetails) None) w
      with
      | (None, w1) => (Throw (Error "Failed to create order"), w1)
      | (Some order, w1) =>
          match map_result (order_item_of order) cartItems with
          | Throw err => (Throw err, w1)
          | Ok orderItemsData =>
              let (itemsError, w2) := order_items_insert e orderItemsData w1 in
              (clearCart e ;;; ret order) w2
          end
      end.

(** The embedded select of the lines of an order (the [order_items] part of
    the query). *)
Definition join_order_items (r : Remote) (o : Order) : Order :=
  mkOrder (o_id o) (o_created_at o) (o_order_number o)
    (o_shipping_name o) (o_shipping_phone o) (o_shipping_address o)
    (o_shipping_city o) (o_shipping_state o) (o_shipping_pincode o)
    (o_subtotal o) (o_shipping_cost o) (o_total o) (o_status o)
    (o_payment_method o) (o_payment_status o) (o_transaction_id o)
    (Some (filter (fun i => oi_order_id i =? o_id o) (order_items r))).

Definition getOrder (orderId : string) (e : Env) (w : World) : option Order :=
  if order_select_fails e then None
  else
    single (filter (fun o => o_id o =? orderId)
              (map (join_order_items (remote w)) (orders (remote w)))).

(** [.order('created_at', { ascending: false })]: the rows, latest first. *)
Fixpoint insert_desc (o : Order) (sorted : list Order) : list Order :=
  match sorted with
  | [] => [o]
  | x :: rest =>
      if (o_created_at x <=? o_created_at o)%Z then o :: sorted
      else x :: insert_desc o rest
  end.

Definition order_desc (rows : list Order) : list Order :=
  fold_right insert_desc [] rows.

Definition getOrders (e : Env) (w : World) : list Order :=
  if orders_select_fails e then []
  else order_desc (map (join_order_items (remote w)) (orders (remote w))).

(** ** Sample data *)

Module Sample.

Definition shoes_cat : Category := mkCategory "c1" "Shoes" "shoes" None.
Definition hats_cat : Category := mkCategory "c2" "Hats" "hats" None.

Definition red_shoes : Product :=
  mkProduct "p1" "Red Shoes" 300%float ["red.png"] None (Some "c1") None [].
Definition red_hat : Product :=
  mkProduct "p2" "Red Hat" 450%float [] None (Some "c2") None [].

(** A product priced at a tenth, which binary64 does not hold exactly. *)
Definition sticker : Product :=
  mkProduct "p3" "Sticker" (PrimFloat.div 1%float 10%float) [] None None None [].

Definition db : Remote :=
  mkRemote [shoes_cat; hats_cat] [red_shoes; red_hat; sticker] [] [] [].

(** Every write and every request accepted, at time 1700000000000. *)
Definition env : Env :=
  mkEnv 1700000000000 false false false false (fun _ => false) false "o1"
    1700000000001 false false false false.

(** The same, with the write to the local slot refused. *)
Definition env_slot_full : Env :=
  mkEnv 1700000000000 true false false false (fun _ => false) false "o1"
    1700000000001 false false false false.

(** The same as [env], with the insert of the order lines refused. *)
Definition env_items_down : Env :=
  mkEnv 1700000000000 false false false false (fun _ => false) false "o1"
    1700000000001 true false false false.

(** The same as [env], with the insert of the order refused. *)
Definition env_order_down : Env :=
  mkEnv 1700000000000 false false false false (fun _ => false) true "o1"
    1700000000001 false false false false.

(** The same as [env], with the reads of the orders refused. *)
Definition env_reads_down : Env :=
  mkEnv 1700000000000 false false false false (fun _ => false) false "o1"
    1700000000001 false false true true.

Definition fresh : World := mkWorld None db.

Definition holding (cart : list CartItem) : World :=
  mkWorld (Some (JsonText (JCart cart))) db.

(** A stored item without a product. *)
Definition line (id productId : string) (quantity : number) : CartItem :=
  mkCartItem id productId (Some quantity) None.

Definition address : ShippingAddress :=
  mkShippingAddress "Asha" "9000000000" "1 Main Road" "Pune" "MH" "411001".

Definition payment : PaymentDetails := mkPaymentDetails "cod" "pending" None.

(** A search that keeps the products whose name is the query. *)
Definition exact_search (l : list Product) (q : string) : list Product :=
  filter (fun p => p_name p =? q) l.

Definition order_at (id : string) (created_at : Z) : Order :=
  mkOrder id created_at "ORD-1" "Asha" "9000000000" "1 Main Road" "Pune" "MH"
    "411001" 600%float 0%float 600%float pending "cod" "pending" None None.

(** A shop with two earlier orders and one line. *)
Definition shop : World :=
  mkWorld None
    (mkRemote [shoes_cat; hats_cat] [red_shoes; red_hat; sticker]
       [order_at "o7" 5; order_at "o8" 9]
       [mkOrderItem "o8" "p1" "Red Shoes" (Some "red.png") 300%float (Some 2%float)] []).

(** The order "o8" of [shop] as [getOrder] returns it. *)
Definition read_o8 : Order :=
  mkOrder "o8" 9 "ORD-1" "Asha" "9000000000" "1 Main Road" "Pune" "MH"
    "411001" 600%float 0%float 600%float pending "cod" "pending" None
    (Some [mkOrderItem "o8" "p1" "Red Shoes" (Some "red.png") 300%float (Some 2%float)]).

End Sample.

(** ** Vocabulary of the properties *)

Definition stored_cart (w : World) (items : list CartItem) : Prop :=
  getCartFromStorage w = Ok (JCart items).

Definition for_product (productId : string) (item : CartItem) : bool :=
  ci_product_id item =? productId.

Definition has_id (itemId : string) (item : CartItem) : bool :=
  ci_id item =? itemId.

(** The list [addToCart] hands to [saveCartToStorage]. *)
Definition added (productId : string) (quantity : number) (e : Env)
  (items : list CartItem) : list CartItem :=
  match find (for_product productId) items with
  | Some _ =>
      mutate_first (for_product productId)
        (fun existingItem =>
           with_quantity existingItem
             (PrimFloat.add (to_number (ci_quantity existingItem)) quantity))
        items
  | None => items ++ [mkCartItem (show_Z (now e)) productId (Some quantity) None]
  end.

(** The list [updateCartItemQuantity] hands to [saveCartToStorage] when the
    item is in the cart. *)
Definition updated (itemId : string) (quantity : number)
  (items : list CartItem) : list CartItem :=
  if PrimFloat.leb quantity 0%float then
    filter (fun i => negb (has_id itemId i)) items
  else mutate_first (has_id itemId) (fun item => with_quantity item quantity) items.

(** The world once the slot holds the text of [cart]. *)
Definition written (cart : list CartItem) (w : World) : World :=
  mkWorld (Some (JsonText (JCart (JSON_stringify cart)))) (remote w).

(** The world after [saveCartToStorage]. *)
Definition save (e : Env) (cart : list CartItem) (w : World) : World :=
  if setItem_fails e then w else written cart w.

(** A number that JSON writes and reads back as itself: finite, and not
    negative zero. *)
Definition survives_json (x : number) : Prop := json_number x = Some x.

Definition positive_quantity (item : CartItem) : Prop :=
  exists x, ci_quantity item = Some x /\ PrimFloat.ltb 0%float x = true.

Definition positive_quantities (w : World) : Prop :=
  forall items, stored_cart w items -> Forall positive_quantity items.

(** The list [getCartItems] returns for a stored cart. *)
Definition assembled (e : Env) (w : World) (items : list CartItem) : list CartItem :=
  map (fun item => with_product item (getProduct (ci_product_id item) e w)) items.

(** The sum of a list of numbers, added from the left starting at 0, as
    [reduce] does. *)
Definition js_sum (l : list number) : number := fold_left PrimFloat.add l 0%float.

(** The amount of a line: [(price || 0) * quantity], with price 0 when the
    product could not be fetched. *)
Definition line_amount (item : CartItem) : number :=
  PrimFloat.mul (price_or_zero item) (to_number (ci_quantity item)).

Definition subtotal_of (cartItems : list CartItem) : number :=
  fold_left
    (fun sum item =>
       PrimFloat.add sum
         (PrimFloat.mul (price_or_zero item) (to_number (ci_quantity item))))
    cartItems 0%float.

Definition shipping_of (subtotal : number) : number :=
  if PrimFloat.ltb 500%float subtotal then 0%float else 40%float.

(** The row [createOrder] sends to the [orders] table. *)
Definition order_row (shippingAddress : ShippingAddress)
  (paymentDetails : PaymentDetails) (e : Env) (cartItems : list CartItem) : Order :=
  let subtotal := subtotal_of cartItems in
  let shipping_cost := shipping_of subtotal in
  mkOrder (new_order_id e) (new_created_at e) ("ORD-" ++ show_Z (now e))%string
    (sa_name shippingAddress) (sa_phone shippingAddress)
    (sa_address shippingAddress) (sa_city shippingAddress)
    (sa_state shippingAddress) (sa_pincode shippingAddress)
    subtotal shipping_cost (PrimFloat.add subtotal shipping_cost) pending
    (pd_method paymentDetails) (pd_status paymentDetails)
    (pd_transactionId paymentDetails) None.

(** The amount of an order line, computed the way the subtotal is. *)
Definition row_amount (row : OrderItem) : number :=
  PrimFloat.mul (or_zero (oi_price row)) (to_number (oi_quantity row)).

(** [a] comes before [b] in a list that shows the latest first. *)
Definition not_older (a b : Order) : Prop := o_created_at b <= o_created_at a.

(** The lines of an order in the [order_items] table. *)
Definition lines_of (r : Remote) (orderId : string) : list OrderItem :=
  filter (fun i => oi_order_id i =? orderId) (order_items r).

(** * Properties *)

(** ** Numbers *)

Lemma SFcompare_antisym (x y : spec_float) (c : comparison) :
  SFcompare x y = Some c -> SFcompare y x = Some (CompOpp c).
Proof.
  destruct x as [sx | sx | | sx mx ex], y as [sy | sy | | sy my ey];
    simpl; try discriminate; intros [= <-];
    try (destruct sx; reflexivity); try (destruct sy; reflexivity);
    try (destruct sx, sy; reflexivity).
  change (PosDef.Pos.compare_cont Eq my mx) with (Pos.compare my mx).
  change (PosDef.Pos.compare_cont Eq mx my) with (Pos.compare mx my).
  rewrite (Z.compare_antisym ex ey), (Pos.compare_antisym mx my).
  destruct sx, sy; try reflexivity;
    destruct (ex ?= ey)%Z; simpl; try reflexivity;
    destruct (mx ?= my)%positive; reflexivity.
Qed.

(** [x <= y] excludes [y < x], and [x < y] excludes [y <= x]; NaN is in
    neither relation with anything. *)
Lemma leb_not_ltb (x y : number) :
  PrimFloat.leb x y = true -> PrimFloat.ltb y x = false.
Proof.
  rewrite leb_spec, ltb_spec. unfold SFleb, SFltb.
  destruct (SFcompare (Prim2SF x) (Prim2SF y)) as [c|] eqn:Hc; [|discriminate].
  rewrite (SFcompare_antisym _ _ _ Hc).
  destruct c; simpl; intros; congruence.
Qed.


(** Numbers that [eqb] tells apart are different. *)
Lemma eqb_false_neq (x y : number) :
  PrimFloat.eqb x y = false -> PrimFloat.eqb y y = true -> x <> y.
Proof. intros Hxy Hyy ->; congruence. Qed.

(** What JSON wrote, it writes again as it is. *)
Lemma json_number_idem (x y : number) :
  json_number x = Some y -> json_number y = Some y.
Proof.
  unfold json_number.
  destruct (PrimFloat.is_finite x) eqn:Hfin; [|discriminate].
  destruct (PrimFloat.is_zero x) eqn:Hzero; intros [= <-].
  - reflexivity.
  - now rewrite Hfin, Hzero.
Qed.

Lemma json_item_idem (item : CartItem) : json_item (json_item item) = json_item item.
Proof.
  unfold json_item; simpl.
  destruct (ci_quantity item) as [x|]; [|reflexivity].
  destruct (json_number x) as [y|] eqn:Hx; [|reflexivity].
  now rewrite (json_number_idem x y Hx).
Qed.

Lemma JSON_stringify_idem (cart : list CartItem) :
  JSON_stringify (JSON_stringify cart) = JSON_stringify cart.
Proof.
  unfold JSON_stringify. rewrite map_map. apply map_ext, json_item_idem.
Qed.

Lemma JSON_stringify_fields (cart : list CartItem) :
  map ci_id (JSON_stringify cart) = map ci_id cart /\
  map ci_product_id (JSON_stringify cart) = map ci_product_id cart.
Proof. unfold JSON_stringify; rewrite !map_map; split; reflexivity. Qed.

Lemma JSON_stringify_filter (keep : CartItem -> bool) (cart : list CartItem) :
  (forall item, keep (json_item item) = keep item) ->
  filter keep (JSON_stringify cart) = JSON_stringify (filter keep cart).
Proof.
  intros Hkeep. unfold JSON_stringify.
  induction cart as [|x xs IH]; simpl; [reflexivity|].
  rewrite Hkeep. destruct (keep x); simpl; now rewrite IH.
Qed.

(** ** The local cart store *)

Lemma getCartFromStorage_total (w : World) :
  exists v, getCartFromStorage w = Ok v.
Proof.
  unfold getCartFromStorage.
  destruct (slot w) as [[| |v]|]; simpl; eauto.
Qed.

Lemma stored_cart_written (cart : list CartItem) (w : World) :
  stored_cart (written cart w) (JSON_stringify cart).
Proof. reflexivity. Qed.

Lemma stored_cart_inj (w : World) (a b : list CartItem) :
  stored_cart w a -> stored_cart w b -> a = b.
Proof. unfold stored_cart; intros Ha Hb; congruence. Qed.

Lemma saveCartToStorage_world (e : Env) (cart : list CartItem) (w : World) :
  saveCartToStorage e cart w = (Ok tt, save e cart w).
Proof.
  unfold saveCartToStorage, setItem, save, written.
  destruct (setItem_fails e); reflexivity.
Qed.

Lemma save_accepted (e : Env) (cart : list CartItem) (w : World) :
  setItem_fails e = false -> save e cart w = written cart w.
Proof. unfold save; intros ->; reflexivity. Qed.

Lemma save_refused (e : Env) (cart : list CartItem) (w : World) :
  setItem_fails e = true -> save e cart w = w.
Proof. unfold save; intros ->; reflexivity. Qed.

Lemma remote_save (e : Env) (cart : list CartItem) (w : World) :
  remote (save e cart w) = remote w.
Proof. unfold save; destruct (setItem_fails e); reflexivity. Qed.

(** ** The cart operations *)

Lemma getCartItems_keeps_world (e : Env) (w : World) :
  snd (getCartItems e w) = w.
Proof.
  unfold getCartItems, bind, read_cart, lift, get_world, ret.
  destruct (getCartFromStorage w) as [[| | | |items]|err]; reflexivity.
Qed.

Lemma getCartItems_stored (e : Env) (w : World) (items : list CartItem) :
  stored_cart w items ->
  getCartItems e w =
  (Ok (map (fun item => with_product item (getProduct (ci_product_id item) e w)) items), w).
Proof.
  unfold stored_cart, getCartItems, bind, read_cart, lift, get_world, ret.
  intros ->; reflexivity.
Qed.

Lemma addToCart_world (productId : string) (quantity : number) (e : Env)
  (w : World) (items : list CartItem) :
  stored_cart w items ->
  snd (addToCart productId quantity e w) = save e (added productId quantity e items) w.
Proof.
  unfold stored_cart, addToCart, bind, read_cart, lift.
  intros ->; cbn [as_array]. rewrite saveCartToStorage_world.
  rewrite getCartItems_keeps_world; reflexivity.
Qed.

Lemma updateCartItemQuantity_world (itemId : string) (quantity : number) (e : Env)
  (w : World) (items : list CartItem) :
  stored_cart w items ->
  snd (updateCartItemQuantity itemId quantity e w) =
  match find (has_id itemId) items with
  | Some _ => save e (updated itemId quantity items) w
  | None => w
  end.
Proof.
  unfold stored_cart, updateCartItemQuantity, bind, read_cart, lift.
  intros Hw; rewrite Hw; cbn [as_array].
  unfold updated, has_id, ret.
  destruct (find _ items); [destruct (PrimFloat.leb quantity 0)|];
    rewrite ?saveCartToStorage_world, getCartItems_keeps_world; auto.
Qed.

Lemma removeFromCart_world (itemId : string) (e : Env) (w : World)
  (items : list CartItem) :
  stored_cart w items ->
  snd (removeFromCart itemId e w) =
  save e (filter (fun i => negb (has_id itemId i)) items) w.
Proof.
  unfold stored_cart, removeFromCart, bind, read_cart, lift.
  intros ->; cbn [as_array]. rewrite saveCartToStorage_world.
  rewrite getCartItems_keeps_world; reflexivity.
Qed.

(** When what the store holds is not an array, the cart operations throw
    before they write. *)
Lemma not_array_throws (w : World) (v : JsonValue) :
  getCartFromStorage w = Ok v -> (forall items, v <> JCart items) ->
  forall e,
    (forall p q, addToCart p q e w = (Throw TypeError, w)) /\
    (forall i q, updateCartItemQuantity i q e w = (Throw TypeError, w)) /\
    (forall i, removeFromCart i e w = (Throw TypeError, w)) /\
    getCartItems e w = (Throw TypeError, w).
Proof.
  intros Hw Hv e.
  unfold addToCart, updateCartItemQuantity, removeFromCart, getCartItems,
    bind, read_cart, lift.
  rewrite Hw.
  destruct v; try (repeat split; reflexivity).
  exfalso; apply (Hv items); reflexivity.
Qed.

(** *** Lists after an in-place change *)

Section MutateFirst.

Variable test : CartItem -> bool.
Variable f : CartItem -> CartItem.

Lemma find_none_filter (items : list CartItem) :
  find test items = None <-> filter test items = [].
Proof.
  induction items as [|x xs IH]; simpl; [tauto|].
  destruct (test x); [split; discriminate | exact IH].
Qed.

Lemma mutate_first_Forall (P : CartItem -> Prop) (items : list CartItem) :
  (forall x, P x -> test x = true -> P (f x)) ->
  Forall P items -> Forall P (mutate_first test f items).
Proof.
  intros Hf; induction 1 as [|x xs Hx Hxs IH]; simpl; [constructor|].
  destruct (test x) eqn:Hx'; constructor; auto.
Qed.

(** The change hits the first element that passes [test], and that element
    only. *)
Lemma mutate_first_split (items : list CartItem) (x : CartItem) :
  find test items = Some x ->
  exists before after,
    items = before ++ x :: after /\
    mutate_first test f items = before ++ f x :: after /\
    find test before = None.
Proof.
  induction items as [|y ys IH]; simpl; [discriminate|].
  destruct (test y) eqn:Hy.
  - intros [= <-]. exists [], ys; auto.
  - intros Hfind. destruct (IH Hfind) as (b & a & -> & Hm & Hb).
    exists (y :: b), a; simpl; rewrite Hy, Hm; auto.
Qed.

Hypothesis f_keeps_test : forall x, test (f x) = test x.


Lemma filter_mutate_first (items : list CartItem) :
  filter test (mutate_first test f items) =
  match filter test items with
  | [] => []
  | x :: rest => f x :: rest
  end.
Proof.
  induction items as [|x xs IH]; simpl; [reflexivity|].
  destruct (test x) eqn:Hx; simpl.
  - rewrite f_keeps_test, Hx; reflexivity.
  - rewrite Hx; exact IH.
Qed.

Lemma mutate_first_idem (items : list CartItem) :
  (forall x, f (f x) = f x) ->
  mutate_first test f (mutate_first test f items) = mutate_first test f items.
Proof.
  intros Hff; induction items as [|x xs IH]; simpl; [reflexivity|].
  destruct (test x) eqn:Hx; simpl.
  - rewrite f_keeps_test, Hx, Hff; reflexivity.
  - rewrite Hx, IH; reflexivity.
Qed.

End MutateFirst.

(** A change that keeps what another test looks at is not seen by it. *)
Lemma filter_mutate_first_other (test other : CartItem -> bool)
  (f : CartItem -> CartItem) (items : list CartItem) :
  (forall x, other (f x) = other x) ->
  (forall x, test x = true -> other x = false) ->
  filter other (mutate_first test f items) = filter other items.
Proof.
  intros Hf Hdisj; induction items as [|x xs IH]; simpl; [reflexivity|].
  destruct (test x) eqn:Hx; simpl.
  - rewrite Hf, (Hdisj x Hx); reflexivity.
  - rewrite IH; reflexivity.
Qed.

Lemma map_mutate_first {B} (g : CartItem -> B) (test : CartItem -> bool)
  (f : CartItem -> CartItem) (items : list CartItem) :
  (forall x, g (f x) = g x) ->
  map g (mutate_first test f items) = map g items.
Proof.
  intros Hg; induction items as [|x xs IH]; simpl; [reflexivity|].
  destruct (test x); simpl; congruence.
Qed.

Lemma find_for_product_none (productId : string) (items : list CartItem) :
  find (for_product productId) items = None <->
  ~ In productId (map ci_product_id items).
Proof.
  unfold for_product.
  induction items as [|x xs IH]; simpl; [tauto|].
  destruct (ci_product_id x =? productId) eqn:Hx.
  - apply String.eqb_eq in Hx. split; [discriminate | tauto].
  - apply String.eqb_neq in Hx. tauto.
Qed.

Lemma filter_added_same (productId : string) (quantity : number) (e : Env)
  (items : list CartItem) :
  filter (for_product productId) (added productId quantity e items) =
  match filter (for_product productId) items with
  | [] => [mkCartItem (show_Z (now e)) productId (Some quantity) None]
  | x :: rest =>
      with_quantity x (PrimFloat.add (to_number (ci_quantity x)) quantity) :: rest
  end.
Proof.
  unfold added.
  destruct (find (for_product productId) items) as [x|] eqn:Hfind.
  - rewrite filter_mutate_first by reflexivity.
    destruct (filter (for_product productId) items) eqn:Hfil; [|reflexivity].
    apply find_none_filter in Hfil; congruence.
  - rewrite filter_app; simpl.
    apply find_none_filter in Hfind; rewrite Hfind.
    unfold for_product; simpl; rewrite String.eqb_refl; reflexivity.
Qed.

Lemma filter_added_other (productId other : string) (quantity : number) (e : Env)
  (items : list CartItem) :
  other <> productId ->
  filter (for_product other) (added productId quantity e items) =
  filter (for_product other) items.
Proof.
  intros Hneq; unfold added.
  destruct (find (for_product productId) items).
  - apply filter_mutate_first_other; [reflexivity|].
    unfold for_product; intros x Hx.
    apply String.eqb_eq in Hx; apply String.eqb_neq; congruence.
  - rewrite filter_app; simpl.
    unfold for_product at 2; simpl.
    apply String.eqb_neq in Hneq; rewrite String.eqb_sym, Hneq.
    apply app_nil_r.
Qed.

Lemma added_NoDup (productId : string) (quantity : number) (e : Env)
  (items : list CartItem) :
  NoDup (map ci_product_id items) ->
  NoDup (map ci_product_id (added productId quantity e items)).
Proof.
  intros Hnd; unfold added.
  destruct (find (for_product productId) items) eqn:Hfind.
  - rewrite map_mutate_first by reflexivity; exact Hnd.
  - rewrite map_app; simpl.
    apply find_for_product_none in Hfind.
    apply NoDup_app; [exact Hnd | repeat constructor; simpl; tauto |].
    simpl; intros x Hx [<-|[]]; contradiction.
Qed.

(** *** addToCart *)

Lemma for_product_json (productId : string) (item : CartItem) :
  for_product productId (json_item item) = for_product productId item.
Proof. reflexivity. Qed.


(** After [addToCart] the store holds the cart it held, when the write was
    refused, or the text of the new cart. *)
Lemma addToCart_stored (productId : string) (quantity : number) (e : Env)
  (w : World) (items : list CartItem) :
  stored_cart w items ->
  exists items1,
    stored_cart (snd (addToCart productId quantity e w)) items1 /\
    (items1 = items \/ items1 = JSON_stringify (added productId quantity e items)).
Proof.
  intros Hw. rewrite (addToCart_world productId quantity e w items Hw).
  unfold save. destruct (setItem_fails e).
  - exists items; auto.
  - exists (JSON_stringify (added productId quantity e items)).
    split; [apply stored_cart_written | auto].
Qed.

Lemma addToCart_keeps_NoDup (productId : string) (quantity : number) (e : Env)
  (w : World) (items items1 : list CartItem) :
  stored_cart w items ->
  stored_cart (snd (addToCart productId quantity e w)) items1 ->
  NoDup (map ci_product_id items) -> NoDup (map ci_product_id items1).
Proof.
  intros Hw Hw1 Hnd.
  destruct (addToCart_stored productId quantity e w items Hw) as (l & Hl & Hcases).
  rewrite (stored_cart_inj _ _ _ Hw1 Hl).
  destruct Hcases as [-> | ->]; [exact Hnd|].
  rewrite (proj2 (JSON_stringify_fields _)).
  now apply added_NoDup.
Qed.

(** C5 (as stated, refuted): when the cart already holds one unit of the
    product, adding 2 and then 3 leaves the item with quantity 6, not
    2 + 3. *)
Lemma addToCart_twice_on_present_product :
  let w2 :=
    snd (addToCart "p1" 3%float Sample.env
           (snd (addToCart "p1" 2%float Sample.env
                   (Sample.holding [Sample.line "a" "p1" 1%float])))) in
  stored_cart w2 [Sample.line "a" "p1" 6%float] /\
  ~ (exists item,
       stored_cart w2 [item] /\
       ci_quantity item = Some (PrimFloat.add 2%float 3%float)).
Proof.
  split; [reflexivity|].
  intros (item & Hitem & Hq).
  assert (Hsix : stored_cart
            (snd (addToCart "p1" 3%float Sample.env
                    (snd (addToCart "p1" 2%float Sample.env
                            (Sample.holding [Sample.line "a" "p1" 1%float])))))
            [Sample.line "a" "p1" 6%float]) by reflexivity.
  pose proof (stored_cart_inj _ _ _ Hitem Hsix) as Heq.
  apply (f_equal (fun l => match l with
                           | [i] => to_number (ci_quantity i)
                           | _ => 0%float
                           end)) in Heq.
  rewrite Hq in Heq. simpl in Heq.
  apply (f_equal (fun x => PrimFloat.eqb x 6%float)) in Heq.
  vm_compute in Heq. discriminate Heq.
Qed.

(** C5 (amended): from a cart that has no item for the product, with a
    first quantity that JSON writes as itself and both local writes
    accepted, two calls of [addToCart] for the product leave a single
    stored item for it, whose quantity is [q1 + q2] as JSON writes it.
    Whether the writes are accepted or not, a cart without two items of
    the same product never gets two after [addToCart], once or twice. *)
Theorem addToCart_twice_accumulates (productId : string) (q1 q2 : number)
  (e1 e2 : Env) (w : World) (items : list CartItem) :
  stored_cart w items ->
  (find (for_product productId) items = None -> survives_json q1 ->
   setItem_fails e1 = false -> setItem_fails e2 = false ->
   exists items2,
     stored_cart
       (snd (addToCart productId q2 e2 (snd (addToCart productId q1 e1 w)))) items2 /\
     filter (for_product productId) items2 =
     [mkCartItem (show_Z (now e1)) productId (json_number (PrimFloat.add q1 q2)) None]) /\
  (forall items1,
     stored_cart (snd (addToCart productId q1 e1 w)) items1 ->
     NoDup (map ci_product_id items) -> NoDup (map ci_product_id items1)) /\
  (forall items2,
     stored_cart
       (snd (addToCart productId q2 e2 (snd (addToCart productId q1 e1 w)))) items2 ->
     NoDup (map ci_product_id items) -> NoDup (map ci_product_id items2)).
Proof.
  intros Hw. split; [|split].
  - intros Hnone Hq1 He1 He2.
    rewrite (addToCart_world productId q1 e1 w items Hw), (save_accepted e1 _ _ He1).
    rewrite (addToCart_world productId q2 e2 _ _ (stored_cart_written _ w)).
    rewrite (save_accepted e2 _ _ He2).
    eexists; split; [apply stored_cart_written|].
    rewrite (JSON_stringify_filter _ _ (for_product_json productId)).
    rewrite filter_added_same.
    rewrite (JSON_stringify_filter _ _ (for_product_json productId)).
    rewrite filter_added_same.
    apply find_none_filter in Hnone. rewrite Hnone.
    simpl. unfold survives_json in Hq1. rewrite Hq1. reflexivity.
  - intros items1 Hw1. now apply addToCart_keeps_NoDup with (w := w) (e := e1)
      (productId := productId) (quantity := q1).
  - intros items2 Hw2 Hnd.
    destruct (addToCart_stored productId q1 e1 w items Hw) as (items1 & Hw1 & _).
    apply (addToCart_keeps_NoDup productId q2 e2 _ items1 items2 Hw1 Hw2).
    now apply (addToCart_keeps_NoDup productId q1 e1 w items items1 Hw Hw1).
Qed.

Lemma addToCart_twice_accumulates_witness :
  exists items2,
    stored_cart
      (snd (addToCart "p1" 3%float Sample.env
              (snd (addToCart "p1" 2%float Sample.env Sample.fresh))))
      items2 /\
    filter (for_product "p1") items2 = [Sample.line "1700000000000" "p1" 5%float].
Proof.
  exact (proj1 (addToCart_twice_accumulates "p1" 2%float 3%float Sample.env Sample.env
                  Sample.fresh [] eq_refl) eq_refl eq_refl eq_refl eq_refl).
Defined.

(** *** updateCartItemQuantity *)

Lemma find_filter_out (itemId : string) (items : list CartItem) :
  find (has_id itemId) (filter (fun i => negb (has_id itemId i)) items) = None.
Proof.
  induction items as [|x xs IH]; simpl; [reflexivity|].
  destruct (has_id itemId x) eqn:Hx; simpl; [exact IH|].
  rewrite Hx; exact IH.
Qed.

Lemma filter_out_absent (itemId : string) (items : list CartItem) :
  find (has_id itemId) items = None ->
  filter (fun i => negb (has_id itemId i)) items = items.
Proof.
  induction items as [|x xs IH]; simpl; [reflexivity|].
  destruct (has_id itemId x); simpl; [discriminate|].
  intros H; rewrite IH; auto.
Qed.

Lemma filter_out_no_id (itemId : string) (items : list CartItem) (i : CartItem) :
  In i (filter (fun i => negb (has_id itemId i)) items) -> ci_id i <> itemId.
Proof.
  intros Hin; apply filter_In in Hin as [_ Hneq].
  unfold has_id in Hneq; apply negb_true_iff in Hneq.
  now apply String.eqb_neq.
Qed.









(** *** Inputs the cart does not guard against *)

(** Whatever the store holds, it holds a cart or the operations leave the
    world alone. *)
Lemma cart_or_untouched (w : World) :
  (exists items, stored_cart w items) \/
  (forall e,
     (forall p q, snd (addToCart p q e w) = w) /\
     (forall i q, snd (updateCartItemQuantity i q e w) = w) /\
     (forall i, snd (removeFromCart i e w) = w)).
Proof.
  destruct (getCartFromStorage_total w) as [v Hv].
  destruct v as [| b | n | s | items].
  5: left; exists items; exact Hv.
  all: right; intros e;
    destruct (not_array_throws w _ Hv ltac:(discriminate) e) as (Ha & Hu & Hr & _);
    repeat split; intros; rewrite ?Ha, ?Hu, ?Hr; reflexivity.
Qed.

(** C7 (the code at the failing input): every stored item of an unset
    store has a positive quantity, trivially; after [addToCart] with
    quantity 0 the store holds an item of quantity 0. *)
Theorem addToCart_zero_breaks_positive_quantities :
  positive_quantities Sample.fresh /\
  stored_cart (snd (addToCart "p1" 0%float Sample.env Sample.fresh))
    [Sample.line "1700000000000" "p1" 0%float] /\
  ~ positive_quantities (snd (addToCart "p1" 0%float Sample.env Sample.fresh)).
Proof.
  split; [|split].
  - intros items Hitems.
    rewrite <- (stored_cart_inj Sample.fresh [] items eq_refl Hitems). constructor.
  - reflexivity.
  - intros H.
    specialize (H [Sample.line "1700000000000" "p1" 0%float] eq_refl).
    apply Forall_inv in H. destruct H as (x & Hx & Hpos).
    apply (f_equal to_number) in Hx. simpl in Hx. subst x.
    vm_compute in Hpos. discriminate Hpos.
Qed.

(** C9 (the code at the failing input): a slot whose text is the JSON
    number 42 is read without an exception, and what is read is the
    number, not a list of cart items; [addToCart] then throws. *)
Theorem getCartFromStorage_number_not_a_cart :
  let w := mkWorld (Some (JsonText (JNumber 42))) Sample.db in
  getCartFromStorage w = Ok (JNumber 42) /\
  (forall items, getCartFromStorage w <> Ok (JCart items)) /\
  addToCart "p1" 1%float Sample.env w = (Throw TypeError, w).
Proof.
  split; [reflexivity|]. split; [|reflexivity].
  intros items H.
  apply (f_equal (fun r => match r with
                           | Ok (JCart _) => true
                           | _ => false
                           end)) in H.
  discriminate H.
Qed.

(** ** The order workflow *)

Lemma fold_left_map_add (g : CartItem -> number) (l : list CartItem) (a : number) :
  fold_left (fun sum item => PrimFloat.add sum (g item)) l a =
  fold_left PrimFloat.add (map g l) a.
Proof.
  revert a; induction l as [|x xs IH]; intros a; simpl; [reflexivity|].
  apply IH.
Qed.

Lemma subtotal_of_sum (cartItems : list CartItem) :
  subtotal_of cartItems = js_sum (map line_amount cartItems).
Proof.
  unfold subtotal_of, js_sum, line_amount.
  apply (fold_left_map_add
           (fun item => PrimFloat.mul (price_or_zero item) (to_number (ci_quantity item)))).
Qed.

Lemma stored_cart_length (w : World) (items : list CartItem) :
  stored_cart w items -> items <> [] ->
  is_zero (Some (Z.of_nat (List.length items))) = false.
Proof.
  intros _ Hne. destruct items; [contradiction|].
  unfold is_zero. apply Z.eqb_neq.
  rewrite length_cons; lia.
Qed.

Lemma clearCart_world (e : Env) (w : World) (order : Order) :
  (clearCart e ;;; ret order) w = (Ok order, save e [] w).
Proof.
  unfold clearCart, bind. rewrite saveCartToStorage_world. reflexivity.
Qed.

(** What [createOrder] does with a stored cart that has items. *)
Lemma createOrder_nonempty (sa : ShippingAddress) (pd : PaymentDetails)
  (e : Env) (w : World) (items : list CartItem) :
  stored_cart w items -> items <> [] ->
  createOrder sa pd e w =
  if order_insert_fails e then (Throw (Error "Failed to create order"), w)
  else
    let order := order_row sa pd e (assembled e w items) in
    let w1 := set_orders (orders (remote w) ++ [order]) w in
    match map_result (order_item_of order) (assembled e w items) with
    | Throw err => (Throw err, w1)
    | Ok orderItemsData =>
        (Ok order,
         save e [] (if items_insert_fails e then w1
                    else set_order_items (order_items (remote w1) ++ orderItemsData) w1))
    end.
Proof.
  intros Hw Hne.
  unfold createOrder, bind, getCartItemsFromStorage, lift.
  rewrite Hw; cbn [js_length].
  rewrite (stored_cart_length w items Hw Hne).
  rewrite (getCartItems_stored e w items Hw).
  unfold orders_insert, order_row, shipping_of, subtotal_of, assembled.
  destruct (order_insert_fails e); [reflexivity|].
  cbv zeta.
  destruct (map_result _ _) as [data|err]; [|reflexivity].
  unfold order_items_insert.
  destruct (items_insert_fails e); apply clearCart_world.
Qed.

(** When the store holds something else than an array, [createOrder]
    throws before it writes. *)
Lemma createOrder_not_array (sa : ShippingAddress) (pd : PaymentDetails)
  (e : Env) (w : World) (v : JsonValue) :
  getCartFromStorage w = Ok v -> (forall items, v <> JCart items) ->
  exists err, createOrder sa pd e w = (Throw err, w).
Proof.
  intros Hw Hv.
  unfold createOrder, bind, getCartItemsFromStorage, lift.
  rewrite Hw.
  destruct v as [| b | n | s | items]; cbn [js_length].
  5: exfalso; apply (Hv items); reflexivity.
  1: eauto.
  1-2: cbn [is_zero];
    rewrite (proj2 (proj2 (proj2 (not_array_throws w _ Hw Hv e)))); eauto.
  destruct (is_zero _); [unfold throw; eauto|].
  rewrite (proj2 (proj2 (proj2 (not_array_throws w _ Hw Hv e)))); eauto.
Qed.

Lemma createOrder_empty (sa : ShippingAddress) (pd : PaymentDetails)
  (e : Env) (w : World) :
  stored_cart w [] ->
  createOrder sa pd e w = (Throw (Error "Cart is empty"), w).
Proof.
  intros Hw.
  unfold createOrder, bind, getCartItemsFromStorage, lift.
  rewrite Hw; reflexivity.
Qed.

(** C1: on an empty stored cart [createOrder] fails with "Cart is empty"
    and leaves the world as it was: no row is added to [orders],
    [order_items] or [notifications], and the local store is unchanged. *)
Theorem createOrder_empty_cart (sa : ShippingAddress) (pd : PaymentDetails)
  (e : Env) (w : World) :
  stored_cart w [] ->
  createOrder sa pd e w = (Throw (Error "Cart is empty"), w) /\
  orders (remote (snd (createOrder sa pd e w))) = orders (remote w) /\
  order_items (remote (snd (createOrder sa pd e w))) = order_items (remote w) /\
  notifications (remote (snd (createOrder sa pd e w))) = notifications (remote w) /\
  slot (snd (createOrder sa pd e w)) = slot w.
Proof.
  intros Hw. rewrite (createOrder_empty sa pd e w Hw).
  repeat split.
Qed.

Lemma createOrder_empty_cart_witness :
  createOrder Sample.address Sample.payment Sample.env Sample.fresh =
  (Throw (Error "Cart is empty"), Sample.fresh) /\
  createOrder Sample.address Sample.payment Sample.env (mkWorld (Some NotJson) Sample.db) =
  (Throw (Error "Cart is empty"), mkWorld (Some NotJson) Sample.db).
Proof.
  split.
  - exact (proj1 (createOrder_empty_cart Sample.address Sample.payment Sample.env
                    Sample.fresh eq_refl)).
  - exact (proj1 (createOrder_empty_cart Sample.address Sample.payment Sample.env
                    (mkWorld (Some NotJson) Sample.db) eq_refl)).
Defined.

(** The order row reaches the table as soon as the insert is accepted,
    whatever happens afterwards; it is also the order a completed call
    returns. *)
Lemma createOrder_row (sa : ShippingAddress) (pd : PaymentDetails)
  (e : Env) (w : World) (items : list CartItem) :
  stored_cart w items -> items <> [] -> order_insert_fails e = false ->
  let order := order_row sa pd e (assembled e w items) in
  orders (remote (snd (createOrder sa pd e w))) = orders (remote w) ++ [order] /\
  (forall o, fst (createOrder sa pd e w) = Ok o -> o = order).
Proof.
  intros Hw Hne Hins.
  rewrite (createOrder_nonempty sa pd e w items Hw Hne), Hins.
  cbv zeta.
  destruct (map_result _ _) as [data|err]; simpl.
  - split; [|congruence].
    rewrite remote_save. destruct (items_insert_fails e); reflexivity.
  - split; [reflexivity | discriminate].
Qed.

(** C2: for a cart with items, the order row [createOrder] writes (and
    returns when it completes) has for subtotal the amount computed from
    the assembled cart, a shipping cost of 40 when that subtotal is at most
    500 and of 0 when it is above 500, and a total of subtotal plus
    shipping cost. *)
Theorem createOrder_shipping_and_total (sa : ShippingAddress)
  (pd : PaymentDetails) (e : Env) (w : World) (items : list CartItem) :
  stored_cart w items -> items <> [] -> order_insert_fails e = false ->
  exists order cartItems,
    getCartItems e w = (Ok cartItems, w) /\
    orders (remote (snd (createOrder sa pd e w))) = orders (remote w) ++ [order] /\
    (forall o, fst (createOrder sa pd e w) = Ok o -> o = order) /\
    o_subtotal order = subtotal_of cartItems /\
    (PrimFloat.leb (o_subtotal order) 500%float = true ->
       o_shipping_cost order = 40%float) /\
    (PrimFloat.ltb 500%float (o_subtotal order) = true ->
       o_shipping_cost order = 0%float) /\
    o_total order = PrimFloat.add (o_subtotal order) (o_shipping_cost order).
Proof.
  intros Hw Hne Hins.
  destruct (createOrder_row sa pd e w items Hw Hne Hins) as [Hrow Hret].
  exists (order_row sa pd e (assembled e w items)), (assembled e w items).
  split; [now apply getCartItems_stored|].
  split; [exact Hrow|]. split; [exact Hret|].
  unfold order_row, shipping_of; cbn [o_subtotal o_shipping_cost o_total].
  split; [reflexivity|]. split; [|split; [|reflexivity]].
  - intros Hle. now rewrite (leb_not_ltb _ _ Hle).
  - intros ->. reflexivity.
Qed.

Lemma createOrder_shipping_and_total_witness :
  (exists order,
     orders (remote (snd (createOrder Sample.address Sample.payment Sample.env
                            (Sample.holding [Sample.line "a" "p1" 2%float])))) = [order] /\
     o_subtotal order = 600%float /\
     o_shipping_cost order = 0%float /\
     o_total order = 600%float) /\
  (exists order,
     orders (remote (snd (createOrder Sample.address Sample.payment Sample.env
                            (Sample.holding [Sample.line "a" "p2" 1%float])))) = [order] /\
     o_subtotal order = 450%float /\
     o_shipping_cost order = 40%float /\
     o_total order = 490%float).
Proof.
  split.
  - destruct (createOrder_shipping_and_total Sample.address Sample.payment Sample.env
                (Sample.holding [Sample.line "a" "p1" 2%float]) _ eq_refl
                ltac:(discriminate) eq_refl)
      as (order & cartItems & Hget & Hrow & _ & Hsub & _ & Hfree & Htotal).
    apply (f_equal (fun r => match fst r with Ok l => l | Throw _ => [] end)) in Hget.
    cbn [fst] in Hget. subst cartItems.
    assert (Hsix : o_subtotal order = 600%float) by (rewrite Hsub; reflexivity).
    exists order. split; [exact Hrow|]. split; [exact Hsix|].
    assert (Hship : o_shipping_cost order = 0%float)
      by (apply Hfree; rewrite Hsix; reflexivity).
    split; [exact Hship|].
    rewrite Htotal, Hsix, Hship. reflexivity.
  - destruct (createOrder_shipping_and_total Sample.address Sample.payment Sample.env
                (Sample.holding [Sample.line "a" "p2" 1%float]) _ eq_refl
                ltac:(discriminate) eq_refl)
      as (order & cartItems & Hget & Hrow & _ & Hsub & Hpaid & _ & Htotal).
    apply (f_equal (fun r => match fst r with Ok l => l | Throw _ => [] end)) in Hget.
    cbn [fst] in Hget. subst cartItems.
    assert (Hsix : o_subtotal order = 450%float) by (rewrite Hsub; reflexivity).
    exists order. split; [exact Hrow|]. split; [exact Hsix|].
    assert (Hship : o_shipping_cost order = 40%float)
      by (apply Hpaid; rewrite Hsix; reflexivity).
    split; [exact Hship|].
    rewrite Htotal, Hsix, Hship. reflexivity.
Defined.

(** C3: for a cart with items, the subtotal of the order row is the sum,
    added in cart order from 0 in the arithmetic of JavaScript numbers,
    over the items [getCartItems] returns, of price times quantity: the
    price of the product, which counts as 0 when it is zero or NaN or when
    the product could not be fetched. *)
Theorem createOrder_subtotal (sa : ShippingAddress) (pd : PaymentDetails)
  (e : Env) (w : World) (items : list CartItem) :
  stored_cart w items -> items <> [] -> order_insert_fails e = false ->
  exists order cartItems,
    getCartItems e w = (Ok cartItems, w) /\
    orders (remote (snd (createOrder sa pd e w))) = orders (remote w) ++ [order] /\
    (forall o, fst (createOrder sa pd e w) = Ok o -> o = order) /\
    o_subtotal order = js_sum (map line_amount cartItems) /\
    (forall item product, In item cartItems -> ci_product item = Some product ->
       line_amount item =
       PrimFloat.mul (or_zero (p_price product)) (to_number (ci_quantity item))) /\
    (forall item product, In item cartItems -> ci_product item = Some product ->
       PrimFloat.is_nan (p_price product) || PrimFloat.is_zero (p_price product) = false ->
       line_amount item =
       PrimFloat.mul (p_price product) (to_number (ci_quantity item))) /\
    (forall item, In item cartItems -> ci_product item = None ->
       line_amount item = PrimFloat.mul 0%float (to_number (ci_quantity item))).
Proof.
  intros Hw Hne Hins.
  destruct (createOrder_row sa pd e w items Hw Hne Hins) as [Hrow Hret].
  exists (order_row sa pd e (assembled e w items)), (assembled e w items).
  split; [now apply getCartItems_stored|].
  split; [exact Hrow|]. split; [exact Hret|].
  unfold order_row; cbn [o_subtotal].
  split; [apply subtotal_of_sum|].
  split; [|split].
  - intros item product _ Hp. unfold line_amount, price_or_zero. now rewrite Hp.
  - intros item product _ Hp Htruthy.
    unfold line_amount, price_or_zero, or_zero. now rewrite Hp, Htruthy.
  - intros item _ Hp. unfold line_amount, price_or_zero. now rewrite Hp.
Qed.

Lemma createOrder_subtotal_witness :
  (exists order,
     orders (remote (snd (createOrder Sample.address Sample.payment Sample.env
                            (Sample.holding [Sample.line "a" "p1" 2%float;
                                             Sample.line "b" "p2" 1%float])))) = [order] /\
     o_subtotal order = 1050%float) /\
  (exists order,
     orders (remote (snd (createOrder Sample.address Sample.payment Sample.env
                            (Sample.holding [Sample.line "a" "p3" 3%float])))) = [order] /\
     o_subtotal order = PrimFloat.mul (PrimFloat.div 1%float 10%float) 3%float /\
     PrimFloat.eqb (o_subtotal order) (PrimFloat.div 3%float 10%float) = false).
Proof.
  split.
  - destruct (createOrder_subtotal Sample.address Sample.payment Sample.env
                (Sample.holding [Sample.line "a" "p1" 2%float; Sample.line "b" "p2" 1%float])
                _ eq_refl ltac:(discriminate) eq_refl)
      as (order & cartItems & Hget & Hrow & _ & Hsub & _).
    apply (f_equal (fun r => match fst r with Ok l => l | Throw _ => [] end)) in Hget.
    cbn [fst] in Hget. subst cartItems.
    exists order; split; [exact Hrow|].
    rewrite Hsub. reflexivity.
  - destruct (createOrder_subtotal Sample.address Sample.payment Sample.env
                (Sample.holding [Sample.line "a" "p3" 3%float])
                _ eq_refl ltac:(discriminate) eq_refl)
      as (order & cartItems & Hget & Hrow & _ & Hsub & _).
    apply (f_equal (fun r => match fst r with Ok l => l | Throw _ => [] end)) in Hget.
    cbn [fst] in Hget. subst cartItems.
    exists order; split; [exact Hrow|].
    rewrite Hsub. split; reflexivity.
Defined.

(** C4 (as stated, refuted): when the browser refuses the write that
    clears the slot, [createOrder] completes and returns the order while
    the store still holds the cart. *)
Lemma createOrder_refused_write_keeps_cart :
  exists order w',
    createOrder Sample.address Sample.payment Sample.env_slot_full
      (Sample.holding [Sample.line "a" "p1" 2%float]) = (Ok order, w') /\
    stored_cart w' [Sample.line "a" "p1" 2%float] /\
    ~ stored_cart w' [].
Proof.
  eexists; eexists. split; [lazy; reflexivity|].
  split; [reflexivity|].
  intros H.
  apply (f_equal (fun r => match r with
                           | Ok (JCart []) => true
                           | _ => false
                           end)) in H.
  discriminate H.
Qed.

(** C4 (amended): whenever [createOrder] completes without raising and the
    write to the local slot is accepted, the local store holds the empty
    list afterwards, whether the insert of the order lines was accepted or
    refused. *)
Theorem createOrder_clears_cart (sa : ShippingAddress) (pd : PaymentDetails)
  (e : Env) (w w' : World) (order : Order) :
  createOrder sa pd e w = (Ok order, w') -> setItem_fails e = false ->
  slot w' = Some (JsonText (JCart [])) /\ stored_cart w' [].
Proof.
  intros Hrun He.
  destruct (getCartFromStorage_total w) as [v Hv].
  assert (Hcases : (exists items, v = JCart items) \/ (forall items, v <> JCart items)).
  { destruct v; try (right; discriminate). left; eauto. }
  destruct Hcases as [[items ->] | Hnot].
  - destruct items as [|item items].
    + rewrite (createOrder_empty sa pd e w Hv) in Hrun; discriminate.
    + rewrite (createOrder_nonempty sa pd e w (item :: items) Hv) in Hrun
        by discriminate.
      destruct (order_insert_fails e); [discriminate|].
      cbv zeta in Hrun.
      destruct (map_result _ _); [|discriminate].
      apply (f_equal snd) in Hrun. cbn [snd] in Hrun. subst w'.
      rewrite (save_accepted e _ _ He). split; reflexivity.
  - destruct (createOrder_not_array sa pd e w v Hv Hnot) as [err Herr].
    rewrite Herr in Hrun; discriminate.
Qed.

Lemma createOrder_clears_cart_witness :
  exists order w',
    createOrder Sample.address Sample.payment Sample.env_items_down
      (Sample.holding [Sample.line "a" "p1" 2%float]) = (Ok order, w') /\
    order_items (remote w') = [] /\
    stored_cart w' [].
Proof.
  eexists; eexists.
  split; [lazy; reflexivity|].
  split; [reflexivity|].
  exact (proj2 (createOrder_clears_cart Sample.address Sample.payment
                  Sample.env_items_down
                  (Sample.holding [Sample.line "a" "p1" 2%float]) _ _ eq_refl eq_refl)).
Defined.

Lemma map_result_absent_product (order : Order) (cartItems : list CartItem) :
  (exists item, In item cartItems /\ ci_product item = None) ->
  map_result (order_item_of order) cartItems = Throw TypeError.
Proof.
  induction cartItems as [|x xs IH]; intros (item & Hin & Hnone).
  - destruct Hin.
  - simpl. unfold order_item_of at 1.
    destruct (ci_product x) as [p|] eqn:Hx; [|reflexivity].
    destruct Hin as [-> | Hin]; [congruence|].
    rewrite IH; [reflexivity | eauto].
Qed.

Lemma map_result_all_products (order : Order) (cartItems : list CartItem) :
  (forall item, In item cartItems -> ci_product item <> None) ->
  exists rows,
    map_result (order_item_of order) cartItems = Ok rows /\
    List.length rows = List.length cartItems.
Proof.
  induction cartItems as [|x xs IH]; intros Hall.
  - exists []; split; reflexivity.
  - destruct IH as (rows & Hrows & Hlen); [intros; apply Hall; now right|].
    simpl. unfold order_item_of at 1.
    destruct (ci_product x) as [p|] eqn:Hx.
    + rewrite Hrows. eexists; split; [reflexivity|]. simpl; congruence.
    + exfalso; apply (Hall x); [now left | exact Hx].
Qed.

(** C10: when the stored cart has an item whose product cannot be fetched
    and the insert of the order is accepted, [createOrder] writes the order
    row and then fails with a [TypeError] while it builds the order lines:
    the order stays in the table without lines and the local store keeps
    its cart. *)
Theorem createOrder_absent_product_strands_order (sa : ShippingAddress)
  (pd : PaymentDetails) (e : Env) (w : World) (items : list CartItem)
  (item : CartItem) :
  stored_cart w items -> In item items ->
  getProduct (ci_product_id item) e w = None ->
  order_insert_fails e = false ->
  exists order w',
    createOrder sa pd e w = (Throw TypeError, w') /\
    orders (remote w') = orders (remote w) ++ [order] /\
    order_items (remote w') = order_items (remote w) /\
    notifications (remote w') = notifications (remote w) /\
    slot w' = slot w /\
    stored_cart w' items.
Proof.
  intros Hw Hin Hnone Hins.
  assert (Hne : items <> []) by (intros ->; exact Hin).
  rewrite (createOrder_nonempty sa pd e w items Hw Hne), Hins.
  cbv zeta.
  rewrite map_result_absent_product.
  - eexists; eexists; split; [reflexivity|].
    repeat split; exact Hw.
  - exists (with_product item (getProduct (ci_product_id item) e w)).
    split; [|exact Hnone].
    unfold assembled.
    apply (in_map (fun item => with_product item (getProduct (ci_product_id item) e w))).
    exact Hin.
Qed.

Lemma createOrder_absent_product_strands_order_witness :
  exists order w',
    createOrder Sample.address Sample.payment Sample.env
      (Sample.holding [Sample.line "a" "p1" 2%float; Sample.line "b" "gone" 1%float]) =
    (Throw TypeError, w') /\
    orders (remote w') = [order] /\
    order_items (remote w') = [] /\
    stored_cart w' [Sample.line "a" "p1" 2%float; Sample.line "b" "gone" 1%float].
Proof.
  destruct (createOrder_absent_product_strands_order Sample.address Sample.payment
              Sample.env
              (Sample.holding [Sample.line "a" "p1" 2%float; Sample.line "b" "gone" 1%float])
              _ (Sample.line "b" "gone" 1%float) eq_refl
              (or_intror (or_introl eq_refl)) eq_refl eq_refl)
    as (order & w' & Hrun & Horders & Hitems & _ & _ & Hcart).
  exists order, w'. repeat split; assumption.
Defined.

(** ** The catalogue *)

(** C8: when the category slug resolves to no category, [getProducts]
    answers as it does for the slug "all": the category filter is skipped.
    Without a search query and with the products query answered, the result
    is every product of the table, neither an empty list nor an error. *)
Theorem getProducts_unknown_slug_unfiltered
  (fuse_search : list Product -> string -> list Product)
  (categorySlug searchQuery : string) (e : Env) (w : World) :
  select_category_by_slug e (remote w) categorySlug = None ->
  getProducts fuse_search categorySlug searchQuery e w =
    getProducts fuse_search "all" searchQuery e w /\
  (products_select_fails e = false ->
   getProducts fuse_search categorySlug "" e w = (Ok (select_products (remote w)), w)).
Proof.
  intros Hslug. unfold getProducts; rewrite Hslug; simpl.
  split.
  - destruct (nonempty categorySlug && negb (categorySlug =? "all")); reflexivity.
  - intros ->. rewrite map_id.
    destruct (nonempty categorySlug && negb (categorySlug =? "all")); reflexivity.
Qed.

Lemma getProducts_unknown_slug_unfiltered_witness :
  getProducts Sample.exact_search "toys" "" Sample.env Sample.fresh =
  (Ok (select_products Sample.db), Sample.fresh).
Proof.
  exact (proj2 (getProducts_unknown_slug_unfiltered Sample.exact_search "toys" ""
                  Sample.env Sample.fresh eq_refl) eq_refl).
Defined.


(** ** More on the order workflow *)

(** X1: When the cart has items and the insert of the order is refused,
    [createOrder] fails with "Failed to create order" and nothing is
    written: the tables and the stored cart are as before. *)
Theorem createOrder_insert_refused (sa : ShippingAddress) (pd : PaymentDetails)
  (e : Env) (w : World) (items : list CartItem) :
  stored_cart w items -> items <> [] -> order_insert_fails e = true ->
  createOrder sa pd e w = (Throw (Error "Failed to create order"), w) /\
  stored_cart (snd (createOrder sa pd e w)) items.
Proof.
  intros Hw Hne Hins.
  rewrite (createOrder_nonempty sa pd e w items Hw Hne), Hins.
  split; [reflexivity | exact Hw].
Qed.

Lemma createOrder_insert_refused_witness :
  createOrder Sample.address Sample.payment Sample.env_order_down
    (Sample.holding [Sample.line "a" "p1" 2%float]) =
  (Throw (Error "Failed to create order"), Sample.holding [Sample.line "a" "p1" 2%float]).
Proof.
  exact (proj1 (createOrder_insert_refused Sample.address Sample.payment
                  Sample.env_order_down (Sample.holding [Sample.line "a" "p1" 2%float])
                  _ eq_refl ltac:(discriminate) eq_refl)).
Defined.

(** The lines built from the assembled cart: one per item, in the order of
    the cart, each carrying the id of the order, the product id and the
    quantity of its item, and the same amount. *)
Lemma map_result_lines (order : Order) (cartItems : list CartItem)
  (rows : list OrderItem) :
  map_result (order_item_of order) cartItems = Ok rows ->
  map oi_product_id rows = map ci_product_id cartItems /\
  map oi_quantity rows = map ci_quantity cartItems /\
  Forall (fun row => oi_order_id row = o_id order) rows /\
  map row_amount rows = map line_amount cartItems.
Proof.
  revert rows; induction cartItems as [|x xs IH]; intros rows; simpl.
  - intros H. assert (rows = []) as -> by congruence.
    repeat split; constructor.
  - unfold order_item_of at 1, line_amount at 1, price_or_zero at 1.
    destruct (ci_product x) as [p|]; [|discriminate].
    destruct (map_result (order_item_of order) xs) as [ys|]; [|discriminate].
    intros H.
    assert (rows = mkOrderItem (o_id order) (ci_product_id x) (p_name p)
                     (hd_error (p_images p)) (p_price p) (ci_quantity x) :: ys)
      as -> by congruence.
    destruct (IH ys eq_refl) as (Hp & Hq & Ho & Hs).
    simpl. repeat split; try congruence.
    + constructor; [reflexivity | exact Ho].
    + unfold row_amount at 1. simpl. now rewrite Hs.
Qed.

Lemma assembled_products (e : Env) (w : World) (items : list CartItem) :
  (forall item, In item items -> getProduct (ci_product_id item) e w <> None) ->
  forall item, In item (assembled e w items) -> ci_product item <> None.
Proof.
  intros Hall item Hin. unfold assembled in Hin.
  apply in_map_iff in Hin as (x & <- & Hx).
  exact (Hall x Hx).
Qed.

Lemma assembled_fields (e : Env) (w : World) (items : list CartItem) :
  map ci_id (assembled e w items) = map ci_id items /\
  map ci_product_id (assembled e w items) = map ci_product_id items /\
  map ci_quantity (assembled e w items) = map ci_quantity items.
Proof.
  unfold assembled; rewrite !map_map; repeat split; reflexivity.
Qed.

Lemma createOrder_writes_rows (sa : ShippingAddress)
  (pd : PaymentDetails) (e : Env) (w : World) (items : list CartItem) :
  stored_cart w items -> items <> [] ->
  (forall item, In item items -> getProduct (ci_product_id item) e w <> None) ->
  order_insert_fails e = false -> items_insert_fails e = false ->
  let order := order_row sa pd e (assembled e w items) in
  let w1 := set_orders (orders (remote w) ++ [order]) w in
  exists rows,
    createOrder sa pd e w =
      (Ok order, save e [] (set_order_items (order_items (remote w1) ++ rows) w1)) /\
    map oi_product_id rows = map ci_product_id items /\
    map oi_quantity rows = map ci_quantity items /\
    Forall (fun row => oi_order_id row = o_id order) rows /\
    js_sum (map row_amount rows) = o_subtotal order.
Proof.
  intros Hw Hne Hall Hins Hitems.
  rewrite (createOrder_nonempty sa pd e w items Hw Hne), Hins, Hitems.
  cbv zeta.
  destruct (map_result_all_products (order_row sa pd e (assembled e w items))
              (assembled e w items) (assembled_products e w items Hall))
    as (rows & Hrows & _).
  rewrite Hrows.
  destruct (map_result_lines _ _ _ Hrows) as (Hp & Hq & Ho & Hs).
  destruct (assembled_fields e w items) as (_ & Hp' & Hq').
  exists rows. split; [reflexivity|].
  split; [congruence|]. split; [congruence|]. split; [exact Ho|].
  rewrite Hs. symmetry. apply subtotal_of_sum.
Qed.

(** X2: When every product of the cart is fetched and both inserts are
    accepted, [createOrder] returns the order, adds it to [orders] and adds
    to [order_items] one line per cart item (same products and quantities,
    in the order of the cart, all under the id of the order) whose
    amounts, added as the subtotal is, give the subtotal of the order; when
    the write to the local slot is accepted too, the local store is
    emptied. *)
Theorem createOrder_writes_order_and_lines (sa : ShippingAddress)
  (pd : PaymentDetails) (e : Env) (w : World) (items : list CartItem) :
  stored_cart w items -> items <> [] ->
  (forall item, In item items -> getProduct (ci_product_id item) e w <> None) ->
  order_insert_fails e = false -> items_insert_fails e = false ->
  exists order rows w',
    createOrder sa pd e w = (Ok order, w') /\
    orders (remote w') = orders (remote w) ++ [order] /\
    order_items (remote w') = order_items (remote w) ++ rows /\
    map oi_product_id rows = map ci_product_id items /\
    map oi_quantity rows = map ci_quantity items /\
    Forall (fun row => oi_order_id row = o_id order) rows /\
    js_sum (map row_amount rows) = o_subtotal order /\
    o_status order = pending /\
    (setItem_fails e = false -> stored_cart w' []).
Proof.
  intros Hw Hne Hall Hins Hitems.
  destruct (createOrder_writes_rows sa pd e w items Hw Hne Hall Hins Hitems)
    as (rows & Hrun & Hp & Hq & Ho & Hs).
  eexists; exists rows; eexists. split; [exact Hrun|].
  rewrite remote_save.
  repeat split; try assumption.
  intros He. rewrite (save_accepted e _ _ He). reflexivity.
Qed.

Lemma createOrder_writes_order_and_lines_witness :
  exists order rows w',
    createOrder Sample.address Sample.payment Sample.env
      (Sample.holding [Sample.line "a" "p1" 2%float; Sample.line "b" "p2" 1%float]) =
    (Ok order, w') /\
    order_items (remote w') = rows /\
    map oi_product_id rows = ["p1"; "p2"] /\
    stored_cart w' [].
Proof.
  destruct (createOrder_writes_order_and_lines Sample.address Sample.payment Sample.env
              (Sample.holding [Sample.line "a" "p1" 2%float; Sample.line "b" "p2" 1%float])
              _ eq_refl ltac:(discriminate))
    as (order & rows & w' & Hrun & _ & Hlines & Hp & _ & _ & _ & _ & Hcart).
  - intros item [<- | [<- | []]]; vm_compute; discriminate.
  - reflexivity.
  - reflexivity.
  - exists order, rows, w'. repeat split; try assumption. exact (Hcart eq_refl).
Defined.

(** X3: When every product of the cart is fetched and the insert of the
    lines is refused, [createOrder] still returns the order: the order is
    in the table and no line was written for it; when the write to the
    local slot is accepted, the local store is emptied. *)
Theorem createOrder_lines_refused (sa : ShippingAddress)
  (pd : PaymentDetails) (e : Env) (w : World) (items : list CartItem) :
  stored_cart w items -> items <> [] ->
  (forall item, In item items -> getProduct (ci_product_id item) e w <> None) ->
  order_insert_fails e = false -> items_insert_fails e = true ->
  exists order w',
    createOrder sa pd e w = (Ok order, w') /\
    orders (remote w') = orders (remote w) ++ [order] /\
    order_items (remote w') = order_items (remote w) /\
    (setItem_fails e = false -> stored_cart w' []).
Proof.
  intros Hw Hne Hall Hins Hitems.
  rewrite (createOrder_nonempty sa pd e w items Hw Hne), Hins, Hitems.
  cbv zeta.
  destruct (map_result_all_products (order_row sa pd e (assembled e w items))
              (assembled e w items) (assembled_products e w items Hall))
    as (rows & Hrows & _).
  rewrite Hrows.
  eexists; eexists; split; [reflexivity|].
  rewrite remote_save. repeat split.
  intros He. rewrite (save_accepted e _ _ He). reflexivity.
Qed.

Lemma createOrder_lines_refused_witness :
  exists order w',
    createOrder Sample.address Sample.payment Sample.env_items_down
      (Sample.holding [Sample.line "a" "p1" 2%float]) = (Ok order, w') /\
    orders (remote w') = [order] /\
    order_items (remote w') = [] /\
    stored_cart w' [].
Proof.
  destruct (createOrder_lines_refused Sample.address Sample.payment
              Sample.env_items_down (Sample.holding [Sample.line "a" "p1" 2%float])
              _ eq_refl ltac:(discriminate))
    as (order & w' & Hrun & Ho & Hl & Hcart).
  - intros item [<- | []]; vm_compute; discriminate.
  - reflexivity.
  - reflexivity.
  - exists order, w'. repeat split; try assumption. exact (Hcart eq_refl).
Defined.

(** X4: Whatever the store holds and whatever the network does, [createOrder]
    leaves the catalogue and the notifications alone, keeps every order and
    every order line that was there, and adds at most one order. *)
Theorem createOrder_footprint (sa : ShippingAddress) (pd : PaymentDetails)
  (e : Env) (w : World) :
  let w' := snd (createOrder sa pd e w) in
  categories (remote w') = categories (remote w) /\
  products (remote w') = products (remote w) /\
  notifications (remote w') = notifications (remote w) /\
  (orders (remote w') = orders (remote w) \/
   exists order, orders (remote w') = orders (remote w) ++ [order]) /\
  exists rows, order_items (remote w') = order_items (remote w) ++ rows.
Proof.
  destruct (getCartFromStorage_total w) as [v Hv].
  assert (Hcases : (exists items, v = JCart items) \/ (forall items, v <> JCart items)).
  { destruct v; try (right; discriminate). left; eauto. }
  assert (Hsame : forall err, createOrder sa pd e w = (Throw err, w) ->
    let w' := snd (createOrder sa pd e w) in
    categories (remote w') = categories (remote w) /\
    products (remote w') = products (remote w) /\
    notifications (remote w') = notifications (remote w) /\
    (orders (remote w') = orders (remote w) \/
     exists order, orders (remote w') = orders (remote w) ++ [order]) /\
    exists rows, order_items (remote w') = order_items (remote w) ++ rows).
  { intros err ->; simpl. repeat split; auto. exists []; now rewrite app_nil_r. }
  destruct Hcases as [[items ->] | Hnot].
  - destruct items as [|item items].
    + apply (Hsame _ (createOrder_empty sa pd e w Hv)).
    + rewrite (createOrder_nonempty sa pd e w (item :: items) Hv) by discriminate.
      destruct (order_insert_fails e).
      * simpl. repeat split; auto. exists []; now rewrite app_nil_r.
      * cbv zeta. destruct (map_result _ _) as [rows|err].
        -- cbn [snd]. rewrite remote_save.
           destruct (items_insert_fails e); simpl; repeat split; eauto.
           exists []; now rewrite app_nil_r.
        -- simpl; repeat split; eauto. exists []; now rewrite app_nil_r.
  - destruct (createOrder_not_array sa pd e w v Hv Hnot) as [err Herr].
    apply (Hsame _ Herr).
Qed.

(** ** More on the catalogue *)

Lemma single_filter_some {A} (keep : A -> bool) (rows : list A) (row : A) :
  single (filter keep rows) = Some row -> In row rows /\ keep row = true.
Proof.
  intros Hsingle.
  assert (Hin : In row (filter keep rows)).
  { destruct (filter keep rows) as [|x [|y ys]]; try discriminate.
    injection Hsingle as ->; now left. }
  now apply filter_In in Hin.
Qed.

Lemma single_filter_absent {A} (keep : A -> bool) (rows : list A) :
  (forall row, In row rows -> keep row = false) ->
  single (filter keep rows) = None.
Proof.
  intros Hnone.
  induction rows as [|x xs IH]; simpl; [reflexivity|].
  rewrite (Hnone x) by now left.
  apply IH; intros row Hrow; apply Hnone; now right.
Qed.

Lemma find_none_filter_gen {A} (keep : A -> bool) (rows : list A) :
  filter keep rows = [] <-> (forall row, In row rows -> keep row = false).
Proof.
  induction rows as [|x xs IH]; simpl; [tauto|].
  destruct (keep x) eqn:Hx.
  - split; [discriminate|]. intros H. specialize (H x (or_introl eq_refl)). congruence.
  - rewrite IH. split.
    + intros H row [<- | Hrow]; auto.
    + intros H row Hrow; auto.
Qed.

(** A key that occurs once selects its row. *)
Lemma single_filter_key {A} (key : A -> string) (rows : list A) (row : A) :
  NoDup (map key rows) -> In row rows ->
  single (filter (fun r => key r =? key row) rows) = Some row.
Proof.
  induction rows as [|x xs IH]; simpl; [intros _ []|].
  intros Hnd Hin. inversion Hnd as [|k ks Hx Hxs]; subst.
  destruct Hin as [-> | Hin].
  - rewrite String.eqb_refl.
    rewrite (proj2 (find_none_filter_gen _ xs)); [reflexivity|].
    intros r Hr. apply String.eqb_neq. intros Heq.
    apply Hx. rewrite <- Heq. now apply in_map.
  - assert (Hneq : (key x =? key row) = false).
    { apply String.eqb_neq. intros Heq. apply Hx. rewrite Heq. now apply in_map. }
    rewrite Hneq. now apply IH.
Qed.

(** X5: [getProduct] answers with a row of the products table that has the id
    asked for, joined with its category.  It answers nothing when the
    request fails or no row has the id; when ids are unique in the table,
    every row is found by its id. *)
Theorem getProduct_by_id (id : string) (e : Env) (w : World) :
  (forall product, getProduct id e w = Some product ->
     p_id product = id /\
     exists row, In row (products (remote w)) /\
                 product = join_category (categories (remote w)) row) /\
  (product_select_fails e id = true -> getProduct id e w = None) /\
  (~ In id (map p_id (products (remote w))) -> getProduct id e w = None) /\
  (NoDup (map p_id (products (remote w))) ->
   product_select_fails e id = false ->
   forall row, In row (products (remote w)) -> p_id row = id ->
     getProduct id e w = Some (join_category (categories (remote w)) row)).
Proof.
  unfold getProduct, select_products.
  split; [|split; [|split]].
  - intros product.
    destruct (product_select_fails e id); [discriminate|].
    intros Hsingle. apply single_filter_some in Hsingle as [Hin Hid].
    apply String.eqb_eq in Hid. split; [exact Hid|].
    apply in_map_iff in Hin as (row & <- & Hrow). eauto.
  - intros ->; reflexivity.
  - intros Hnot. destruct (product_select_fails e id); [reflexivity|].
    apply single_filter_absent. intros p Hp.
    apply String.eqb_neq. intros <-. apply Hnot.
    apply in_map_iff in Hp as (row & <- & Hrow).
    apply in_map_iff. exists row. split; [reflexivity | exact Hrow].
  - intros Hnd -> row Hrow <-.
    change (p_id row) with (p_id (join_category (categories (remote w)) row)).
    apply (single_filter_key p_id).
    + rewrite map_map. exact Hnd.
    + now apply in_map.
Qed.

Lemma getProduct_by_id_witness :
  getProduct "p2" Sample.env Sample.fresh =
  Some (join_category (categories Sample.db) Sample.red_hat).
Proof.
  refine (proj2 (proj2 (proj2 (getProduct_by_id "p2" Sample.env Sample.fresh)))
            _ eq_refl Sample.red_hat (or_intror (or_introl eq_refl)) eq_refl).
  repeat constructor; simpl; intuition discriminate.
Defined.

(** X6: When the slug names exactly one category, [getProducts] without a
    search query returns the products of that category and no other: a
    product is in the answer exactly when it is in the table with the
    [category_id] of the category. *)
Theorem getProducts_category_filter
  (fuse_search : list Product -> string -> list Product)
  (categorySlug : string) (e : Env) (w : World) (catData : Category) :
  categorySlug <> "all" -> categorySlug <> "" ->
  select_category_by_slug e (remote w) categorySlug = Some catData ->
  products_select_fails e = false ->
  exists result,
    getProducts fuse_search categorySlug "" e w = (Ok result, w) /\
    cat_slug catData = categorySlug /\
    In catData (categories (remote w)) /\
    (forall product,
       In product result <->
       In product (select_products (remote w)) /\
       p_category_id product = Some (cat_id catData)).
Proof.
  intros Hall Hempty Hslug Hok.
  unfold getProducts. rewrite Hslug, Hok.
  assert (Hguard : nonempty categorySlug && negb (categorySlug =? "all") = true).
  { unfold nonempty. apply String.eqb_neq in Hall, Hempty. now rewrite Hall, Hempty. }
  rewrite Hguard; simpl. rewrite map_id.
  eexists; split; [reflexivity|].
  unfold select_category_by_slug in Hslug.
  destruct (slug_select_fails e); [discriminate|].
  apply single_filter_some in Hslug as [Hin Hs]. apply String.eqb_eq in Hs.
  split; [exact Hs|]. split; [exact Hin|].
  intros product. rewrite filter_In. unfold has_category.
  destruct (p_category_id product) as [c|].
  - split; intros [Hp Hc]; (split; [exact Hp|]).
    + apply String.eqb_eq in Hc; congruence.
    + injection Hc as ->. apply String.eqb_refl.
  - split; intros [_ Hc]; discriminate.
Qed.

Lemma getProducts_category_filter_witness :
  exists result,
    getProducts Sample.exact_search "hats" "" Sample.env Sample.fresh =
    (Ok result, Sample.fresh) /\
    forall product, In product result -> p_category_id product = Some "c2".
Proof.
  destruct (getProducts_category_filter Sample.exact_search "hats" Sample.env
              Sample.fresh Sample.hats_cat ltac:(discriminate) ltac:(discriminate)
              eq_refl eq_refl) as (result & Hrun & _ & _ & Hiff).
  exists result; split; [exact Hrun|].
  intros product Hin. exact (proj2 (proj1 (Hiff product) Hin)).
Defined.

(** X7: A search query is applied to what [getProducts] fetches for the same
    slug without it: the answer is the search library's ranking of that
    list.  When the products query fails the answer is the empty list and
    the library is not consulted. *)
Theorem getProducts_search_after_fetch
  (fuse_search : list Product -> string -> list Product)
  (categorySlug searchQuery : string) (e : Env) (w : World) :
  searchQuery <> "" ->
  exists fetched,
    getProducts fuse_search categorySlug "" e w = (Ok fetched, w) /\
    getProducts fuse_search categorySlug searchQuery e w =
    (Ok (if products_select_fails e then [] else fuse_search fetched searchQuery), w).
Proof.
  intros Hq. apply String.eqb_neq in Hq.
  unfold getProducts, nonempty. rewrite Hq; simpl.
  destruct (products_select_fails e); eexists; split; reflexivity.
Qed.

Lemma getProducts_search_after_fetch_witness :
  getProducts Sample.exact_search "all" "Red Hat" Sample.env Sample.fresh =
  (Ok [join_category (categories Sample.db) Sample.red_hat], Sample.fresh).
Proof.
  destruct (getProducts_search_after_fetch Sample.exact_search "all" "Red Hat"
              Sample.env Sample.fresh ltac:(discriminate)) as (fetched & Hfetch & Hrun).
  rewrite Hrun. injection Hfetch as <-. reflexivity.
Defined.

(** ** More on the cart *)

(** X8: [getCartItems] returns one item per stored item, in the stored order,
    with the stored id, product id and quantity; the product of each is
    what [getProduct] answers for it now (whatever product the stored item
    carried), absent when the lookup fails.  The read changes nothing. *)
Theorem getCartItems_assembles (e : Env) (w : World) (items : list CartItem) :
  stored_cart w items ->
  exists cartItems,
    getCartItems e w = (Ok cartItems, w) /\
    map ci_id cartItems = map ci_id items /\
    map ci_product_id cartItems = map ci_product_id items /\
    map ci_quantity cartItems = map ci_quantity items /\
    Forall (fun item => ci_product item = getProduct (ci_product_id item) e w) cartItems.
Proof.
  intros Hw. exists (assembled e w items).
  split; [now apply getCartItems_stored|].
  destruct (assembled_fields e w items) as (Hi & Hp & Hq).
  repeat split; try assumption.
  unfold assembled. apply Forall_forall. intros item Hin.
  apply in_map_iff in Hin as (x & <- & _). reflexivity.
Qed.

Lemma getCartItems_assembles_witness :
  exists cartItems,
    getCartItems Sample.env
      (Sample.holding [mkCartItem "a" "gone" (Some 2%float) (Some Sample.red_hat)]) =
    (Ok cartItems,
     Sample.holding [mkCartItem "a" "gone" (Some 2%float) (Some Sample.red_hat)]) /\
    map ci_id cartItems = ["a"] /\
    Forall (fun item => ci_product item = None) cartItems.
Proof.
  destruct (getCartItems_assembles Sample.env
              (Sample.holding [mkCartItem "a" "gone" (Some 2%float) (Some Sample.red_hat)])
              _ eq_refl)
    as (cartItems & Hrun & Hid & Hp & _ & Hprod).
  exists cartItems; split; [exact Hrun|]. split; [exact Hid|].
  destruct cartItems as [|c [|c' cs]]; try discriminate Hid.
  apply Forall_inv in Hprod. constructor; [|constructor].
  rewrite Hprod. simpl in Hp.
  assert (Hc : ci_product_id c = "gone") by congruence.
  rewrite Hc. reflexivity.
Defined.

(** X9: With the local write accepted, [removeFromCart] leaves the stored
    cart without any item of that id and with every other item, in the same
    order; a second removal changes nothing. *)
Theorem removeFromCart_removes (itemId : string) (e : Env) (w : World)
  (items : list CartItem) :
  stored_cart w items -> setItem_fails e = false ->
  exists items1,
    stored_cart (snd (removeFromCart itemId e w)) items1 /\
    items1 = JSON_stringify (filter (fun i => negb (has_id itemId i)) items) /\
    (forall i, In i items1 -> ci_id i <> itemId) /\
    map ci_id items1 = map ci_id (filter (fun i => negb (has_id itemId i)) items) /\
    map ci_product_id items1 =
      map ci_product_id (filter (fun i => negb (has_id itemId i)) items) /\
    (forall e', snd (removeFromCart itemId e' (snd (removeFromCart itemId e w))) =
                snd (removeFromCart itemId e w)).
Proof.
  intros Hw He.
  exists (JSON_stringify (filter (fun i => negb (has_id itemId i)) items)).
  rewrite (removeFromCart_world itemId e w items Hw), (save_accepted e _ _ He).
  split; [apply stored_cart_written|]. split; [reflexivity|].
  destruct (JSON_stringify_fields (filter (fun i => negb (has_id itemId i)) items))
    as [Hids Hpids].
  split; [|split; [exact Hids | split; [exact Hpids|]]].
  - intros i Hin. unfold JSON_stringify in Hin.
    apply in_map_iff in Hin as (y & <- & Hy).
    apply (filter_out_no_id itemId items y Hy).
  - intros e'.
    rewrite (removeFromCart_world itemId e' _ _ (stored_cart_written _ w)).
    rewrite (JSON_stringify_filter (fun i => negb (has_id itemId i)))
      by (intros; reflexivity).
    rewrite (filter_out_absent itemId _ (find_filter_out itemId items)).
    unfold save. destruct (setItem_fails e'); [reflexivity|].
    unfold written. simpl. rewrite JSON_stringify_idem. reflexivity.
Qed.

Lemma removeFromCart_removes_witness :
  stored_cart
    (snd (removeFromCart "a" Sample.env
            (Sample.holding [Sample.line "a" "p1" 2%float; Sample.line "b" "p2" 1%float])))
    [Sample.line "b" "p2" 1%float].
Proof.
  destruct (removeFromCart_removes "a" Sample.env
              (Sample.holding [Sample.line "a" "p1" 2%float; Sample.line "b" "p2" 1%float])
              _ eq_refl eq_refl) as (items1 & Hstored & -> & _).
  exact Hstored.
Defined.

(** X10: What [addToCart], [updateCartItemQuantity] and [removeFromCart] return
    is the cart as [getCartItems] reads it from the store they leave. *)
Theorem cart_operations_return_refreshed_cart (e : Env) (w : World)
  (items : list CartItem) :
  stored_cart w items ->
  (forall productId quantity,
     addToCart productId quantity e w =
     getCartItems e (snd (addToCart productId quantity e w))) /\
  (forall itemId quantity,
     updateCartItemQuantity itemId quantity e w =
     getCartItems e (snd (updateCartItemQuantity itemId quantity e w))) /\
  (forall itemId,
     removeFromCart itemId e w = getCartItems e (snd (removeFromCart itemId e w))).
Proof.
  intros Hw. split; [|split].
  - intros p q. rewrite (addToCart_world p q e w items Hw).
    unfold addToCart, bind, read_cart, lift. rewrite Hw.
    cbn [as_array]. rewrite saveCartToStorage_world. reflexivity.
  - intros i q. rewrite (updateCartItemQuantity_world i q e w items Hw).
    unfold updateCartItemQuantity, bind, read_cart, lift. rewrite Hw.
    cbn [as_array]. unfold updated.
    change (fun i0 : CartItem => ci_id i0 =? i) with (has_id i).
    destruct (find (has_id i) items); [|reflexivity].
    destruct (PrimFloat.leb q 0); rewrite saveCartToStorage_world; reflexivity.
  - intros i. rewrite (removeFromCart_world i e w items Hw).
    unfold removeFromCart, bind, read_cart, lift. rewrite Hw.
    cbn [as_array]. rewrite saveCartToStorage_world. reflexivity.
Qed.

Lemma cart_operations_return_refreshed_cart_witness :
  addToCart "p1" 2%float Sample.env Sample.fresh =
  getCartItems Sample.env (snd (addToCart "p1" 2%float Sample.env Sample.fresh)).
Proof.
  exact (proj1 (cart_operations_return_refreshed_cart Sample.env Sample.fresh []
                  eq_refl) "p1" 2%float).
Defined.

Lemma find_for_product_app_other (productId other : string) (item : CartItem)
  (items : list CartItem) :
  find (for_product productId) items = None ->
  ci_product_id item = other -> other <> productId ->
  find (for_product productId) (items ++ [item]) = None.
Proof.
  intros Hnone Hitem Hneq.
  apply find_none_filter. rewrite filter_app.
  apply find_none_filter in Hnone. rewrite Hnone. simpl.
  unfold for_product. rewrite Hitem.
  apply String.eqb_neq in Hneq. now rewrite Hneq.
Qed.

Lemma find_for_product_JSON (productId : string) (items : list CartItem) :
  find (for_product productId) items = None ->
  find (for_product productId) (JSON_stringify items) = None.
Proof.
  intros Hnone. apply find_none_filter.
  rewrite (JSON_stringify_filter _ _ (for_product_json productId)).
  apply find_none_filter in Hnone. now rewrite Hnone.
Qed.

Lemma JSON_stringify_app_left (a b : list CartItem) :
  JSON_stringify (JSON_stringify a ++ b) = JSON_stringify (a ++ b).
Proof.
  unfold JSON_stringify. rewrite !map_app, map_map.
  now rewrite (map_ext _ _ json_item_idem).
Qed.

(** X11: The id of a new cart item is the clock reading.  With the local
    writes accepted, two products added while the clock shows the same
    millisecond get the same item id, and a removal by that id then takes
    both out of the cart. *)
Theorem addToCart_same_instant_shares_id (p1 p2 : string) (q1 q2 : number)
  (e1 e2 : Env) (w : World) (items : list CartItem) :
  stored_cart w items ->
  find (for_product p1) items = None -> find (for_product p2) items = None ->
  p1 <> p2 -> now e2 = now e1 ->
  setItem_fails e1 = false -> setItem_fails e2 = false ->
  let w2 := snd (addToCart p2 q2 e2 (snd (addToCart p1 q1 e1 w))) in
  stored_cart w2
    (JSON_stringify
       (items ++ [mkCartItem (show_Z (now e1)) p1 (Some q1) None;
                  mkCartItem (show_Z (now e1)) p2 (Some q2) None])) /\
  forall e3, setItem_fails e3 = false ->
    stored_cart (snd (removeFromCart (show_Z (now e1)) e3 w2))
      (JSON_stringify (filter (fun i => negb (has_id (show_Z (now e1)) i)) items)).
Proof.
  intros Hw H1 H2 Hneq Hnow He1 He2 w2. subst w2.
  rewrite (addToCart_world p1 q1 e1 w items Hw), (save_accepted e1 _ _ He1).
  rewrite (addToCart_world p2 q2 e2 _ _ (stored_cart_written _ w)).
  rewrite (save_accepted e2 _ _ He2).
  assert (Hfirst : added p1 q1 e1 items =
                   items ++ [mkCartItem (show_Z (now e1)) p1 (Some q1) None]).
  { unfold added. now rewrite H1. }
  assert (Hcart : JSON_stringify (added p2 q2 e2 (JSON_stringify (added p1 q1 e1 items))) =
                  JSON_stringify
                    (items ++ [mkCartItem (show_Z (now e1)) p1 (Some q1) None;
                               mkCartItem (show_Z (now e1)) p2 (Some q2) None])).
  { unfold added at 1. rewrite find_for_product_JSON.
    - rewrite Hnow, JSON_stringify_app_left, Hfirst, <- app_assoc. reflexivity.
    - rewrite Hfirst. now apply (find_for_product_app_other p2 p1). }
  split.
  - unfold stored_cart, written, getCartFromStorage; simpl. now rewrite Hcart.
  - intros e3 He3.
    rewrite (removeFromCart_world _ e3 _ _ (stored_cart_written _ _)).
    rewrite (save_accepted e3 _ _ He3).
    unfold stored_cart, written, getCartFromStorage; simpl.
    rewrite Hcart.
    rewrite (JSON_stringify_filter (fun i => negb (has_id (show_Z (now e1)) i)))
      by (intros; reflexivity).
    rewrite JSON_stringify_idem, filter_app.
    assert (Hnew : filter (fun i => negb (has_id (show_Z (now e1)) i))
                     [mkCartItem (show_Z (now e1)) p1 (Some q1) None;
                      mkCartItem (show_Z (now e1)) p2 (Some q2) None] = []).
    { unfold has_id; simpl. rewrite String.eqb_refl. reflexivity. }
    rewrite Hnew, app_nil_r. reflexivity.
Qed.

Lemma addToCart_same_instant_shares_id_witness :
  stored_cart
    (snd (removeFromCart "1700000000000" Sample.env
            (snd (addToCart "p2" 1%float Sample.env
                    (snd (addToCart "p1" 2%float Sample.env Sample.fresh))))))
    [].
Proof.
  exact (proj2 (addToCart_same_instant_shares_id "p1" "p2" 2%float 1%float
                  Sample.env Sample.env Sample.fresh [] eq_refl eq_refl eq_refl
                  ltac:(discriminate) eq_refl eq_refl eq_refl)
           Sample.env eq_refl).
Defined.

(** X12: A slot whose text parses to something that is not an array blocks the
    cart: every cart operation and [createOrder] throw and write nothing.
    [clearCart] repairs it when its write is accepted: afterwards the store
    holds the empty list. *)
Theorem not_array_store_blocks_cart (sa : ShippingAddress) (pd : PaymentDetails)
  (e : Env) (w : World) (v : JsonValue) :
  getCartFromStorage w = Ok v -> (forall items, v <> JCart items) ->
  getCartItems e w = (Throw TypeError, w) /\
  (forall p q, addToCart p q e w = (Throw TypeError, w)) /\
  (forall i q, updateCartItemQuantity i q e w = (Throw TypeError, w)) /\
  (forall i, removeFromCart i e w = (Throw TypeError, w)) /\
  (exists err, createOrder sa pd e w = (Throw err, w)) /\
  (setItem_fails e = false -> stored_cart (snd (clearCart e w)) []).
Proof.
  intros Hw Hv.
  destruct (not_array_throws w v Hw Hv e) as (Ha & Hu & Hr & Hg).
  repeat split; try assumption.
  - now apply createOrder_not_array with (v := v).
  - intros He. unfold clearCart. rewrite saveCartToStorage_world.
    cbn [snd]. rewrite (save_accepted e _ _ He). reflexivity.
Qed.

Lemma not_array_store_blocks_cart_witness :
  addToCart "p1" 1%float Sample.env (mkWorld (Some (JsonText (JNumber 42))) Sample.db) =
  (Throw TypeError, mkWorld (Some (JsonText (JNumber 42))) Sample.db) /\
  stored_cart
    (snd (clearCart Sample.env (mkWorld (Some (JsonText (JNumber 42))) Sample.db))) [].
Proof.
  destruct (not_array_store_blocks_cart Sample.address Sample.payment
              Sample.env (mkWorld (Some (JsonText (JNumber 42))) Sample.db)
              (JNumber 42) eq_refl ltac:(discriminate)) as (_ & Hadd & _ & _ & _ & Hclear).
  split; [exact (Hadd "p1" 1%float) | exact (Hclear eq_refl)].
Defined.

(** X13: The cart lives in the local slot only: no cart operation changes a
    remote table, whatever the local store holds. *)
Theorem cart_operations_keep_remote (e : Env) (w : World) :
  remote (snd (getCartItems e w)) = remote w /\
  (forall p q, remote (snd (addToCart p q e w)) = remote w) /\
  (forall i q, remote (snd (updateCartItemQuantity i q e w)) = remote w) /\
  (forall i, remote (snd (removeFromCart i e w)) = remote w) /\
  remote (snd (clearCart e w)) = remote w.
Proof.
  split; [now rewrite getCartItems_keeps_world|].
  assert (Hclear : remote (snd (clearCart e w)) = remote w).
  { unfold clearCart. rewrite saveCartToStorage_world. apply remote_save. }
  destruct (cart_or_untouched w) as [[items Hw] | Hsame].
  - repeat split; [| | |exact Hclear].
    + intros p q. rewrite (addToCart_world p q e w items Hw). apply remote_save.
    + intros i q. rewrite (updateCartItemQuantity_world i q e w items Hw).
      destruct (find (has_id i) items); [apply remote_save | reflexivity].
    + intros i. rewrite (removeFromCart_world i e w items Hw). apply remote_save.
  - destruct (Hsame e) as (Ha & Hu & Hr).
    repeat split; [| | |exact Hclear]; intros; now rewrite ?Ha, ?Hu, ?Hr.
Qed.

(** ** Reading orders back *)

Lemma insert_desc_perm (o : Order) (sorted : list Order) :
  Permutation (insert_desc o sorted) (o :: sorted).
Proof.
  induction sorted as [|x xs IH]; simpl; [reflexivity|].
  destruct (o_created_at x <=? o_created_at o)%Z; [reflexivity|].
  rewrite IH. apply perm_swap.
Qed.

Lemma insert_desc_sorted (o : Order) (sorted : list Order) :
  StronglySorted not_older sorted -> StronglySorted not_older (insert_desc o sorted).
Proof.
  induction 1 as [|x xs Hxs IH Hx]; simpl; [repeat constructor|].
  destruct (o_created_at x <=? o_created_at o)%Z eqn:Hcmp.
  - apply Z.leb_le in Hcmp.
    constructor; [constructor; assumption|].
    constructor; [exact Hcmp|].
    eapply Forall_impl; [|exact Hx].
    unfold not_older; intros y Hy; lia.
  - apply Z.leb_gt in Hcmp.
    constructor; [exact IH|].
    apply (Permutation_Forall (Permutation_sym (insert_desc_perm o xs))).
    constructor; [unfold not_older; lia | exact Hx].
Qed.

Lemma order_desc_perm (rows : list Order) : Permutation (order_desc rows) rows.
Proof.
  induction rows as [|x xs IH]; simpl; [reflexivity|].
  rewrite insert_desc_perm. now constructor.
Qed.

Lemma order_desc_sorted (rows : list Order) :
  StronglySorted not_older (order_desc rows).
Proof.
  induction rows as [|x xs IH]; simpl; [constructor|].
  now apply insert_desc_sorted.
Qed.

(** X14: [getOrders] returns every order of the table exactly once, the latest
    first, each with the lines of [order_items] that carry its id; when the
    request fails it returns the empty list. *)
Theorem getOrders_latest_first (e : Env) (w : World) :
  (orders_select_fails e = true -> getOrders e w = []) /\
  (orders_select_fails e = false ->
   Permutation (getOrders e w)
     (map (join_order_items (remote w)) (orders (remote w))) /\
   StronglySorted not_older (getOrders e w) /\
   List.length (getOrders e w) = List.length (orders (remote w)) /\
   Forall (fun o => o_order_items o = Some (lines_of (remote w) (o_id o)))
     (getOrders e w)).
Proof.
  unfold getOrders. split; intros ->; [reflexivity|].
  pose proof (order_desc_perm (map (join_order_items (remote w)) (orders (remote w))))
    as Hperm.
  split; [exact Hperm|]. split; [apply order_desc_sorted|]. split.
  - rewrite (Permutation_length Hperm). apply length_map.
  - apply (Permutation_Forall (Permutation_sym Hperm)).
    apply Forall_forall. intros o Hin.
    apply in_map_iff in Hin as (row & <- & _). reflexivity.
Qed.

Lemma getOrders_latest_first_witness :
  getOrders Sample.env_reads_down Sample.shop = [] /\
  StronglySorted not_older (getOrders Sample.env Sample.shop) /\
  map o_id (getOrders Sample.env Sample.shop) = ["o8"; "o7"].
Proof.
  split; [|split].
  - exact (proj1 (getOrders_latest_first Sample.env_reads_down Sample.shop) eq_refl).
  - exact (proj1 (proj2 (proj2 (getOrders_latest_first Sample.env Sample.shop)
                           eq_refl))).
  - reflexivity.
Defined.

Lemma filter_none {A} (keep : A -> bool) (rows : list A) :
  (forall row, In row rows -> keep row = false) -> filter keep rows = [].
Proof. apply find_none_filter_gen. Qed.

Lemma filter_all {A} (keep : A -> bool) (rows : list A) :
  (forall row, In row rows -> keep row = true) -> filter keep rows = rows.
Proof.
  induction rows as [|x xs IH]; intros Hall; simpl; [reflexivity|].
  rewrite (Hall x) by now left.
  rewrite IH; [reflexivity|]. intros row Hrow; apply Hall; now right.
Qed.

Lemma getOrder_lookup (orderId : string) (e : Env) (w : World) :
  (forall order, getOrder orderId e w = Some order ->
     o_id order = orderId /\
     o_order_items order = Some (lines_of (remote w) orderId) /\
     exists row, In row (orders (remote w)) /\
                 order = join_order_items (remote w) row) /\
  (order_select_fails e = true -> getOrder orderId e w = None) /\
  (~ In orderId (map o_id (orders (remote w))) -> getOrder orderId e w = None).
Proof.
  unfold getOrder. split; [|split].
  - intros order. destruct (order_select_fails e); [discriminate|].
    intros Hsingle. apply single_filter_some in Hsingle as [Hin Hid].
    apply String.eqb_eq in Hid.
    apply in_map_iff in Hin as (row & <- & Hrow).
    simpl in Hid. subst orderId.
    repeat split. eauto.
  - intros ->; reflexivity.
  - intros Hnot. destruct (order_select_fails e); [reflexivity|].
    apply single_filter_absent. intros o Ho.
    apply String.eqb_neq. intros <-. apply Hnot.
    apply in_map_iff in Ho as (row & <- & Hrow).
    apply in_map_iff. exists row; split; [reflexivity | exact Hrow].
Qed.

(** X15: [getOrder] answers with an order of the table that has the id asked
    for, together with the lines of [order_items] that carry that id; it
    answers nothing when the request fails or when no order has the id. *)
Theorem getOrder_by_id (orderId : string) (e : Env) (w : World) :
  (forall order, getOrder orderId e w = Some order ->
     o_id order = orderId /\
     o_order_items order = Some (lines_of (remote w) orderId) /\
     exists row, In row (orders (remote w)) /\
                 order = join_order_items (remote w) row) /\
  (order_select_fails e = true -> getOrder orderId e w = None) /\
  (~ In orderId (map o_id (orders (remote w))) -> getOrder orderId e w = None).
Proof. exact (getOrder_lookup orderId e w). Qed.

Lemma getOrder_by_id_witness :
  getOrder "o8" Sample.env_reads_down Sample.shop = None /\
  getOrder "o9" Sample.env Sample.shop = None /\
  option_map o_order_items (getOrder "o8" Sample.env Sample.shop) =
  Some (Some [mkOrderItem "o8" "p1" "Red Shoes" (Some "red.png") 300%float (Some 2%float)]).
Proof.
  destruct (getOrder_by_id "o8" Sample.env_reads_down Sample.shop) as (_ & Hdown & _).
  destruct (getOrder_by_id "o9" Sample.env Sample.shop) as (_ & _ & Habsent).
  destruct (getOrder_by_id "o8" Sample.env Sample.shop) as (Hfound & _ & _).
  split; [exact (Hdown eq_refl)|]. split.
  - apply Habsent. simpl. intuition discriminate.
  - destruct (getOrder "o8" Sample.env Sample.shop) as [order|] eqn:Hget;
      [|discriminate Hget].
    destruct (Hfound order eq_refl) as (_ & Hlines & _).
    simpl. rewrite Hlines. reflexivity.
Defined.

(** X16: An order created with every product fetched and both inserts accepted
    is read back by [getOrder] under its id, with exactly the lines
    [createOrder] wrote for it, provided the database gave the order an id
    no earlier order has and every earlier line belongs to an earlier
    order. *)
Theorem createOrder_then_getOrder (sa : ShippingAddress) (pd : PaymentDetails)
  (e e' : Env) (w : World) (items : list CartItem) :
  stored_cart w items -> items <> [] ->
  (forall item, In item items -> getProduct (ci_product_id item) e w <> None) ->
  order_insert_fails e = false -> items_insert_fails e = false ->
  ~ In (new_order_id e) (map o_id (orders (remote w))) ->
  (forall line, In line (order_items (remote w)) ->
     In (oi_order_id line) (map o_id (orders (remote w)))) ->
  order_select_fails e' = false ->
  exists order rows w',
    createOrder sa pd e w = (Ok order, w') /\
    order_items (remote w') = order_items (remote w) ++ rows /\
    map oi_product_id rows = map ci_product_id items /\
    map oi_quantity rows = map ci_quantity items /\
    getOrder (o_id order) e' w' = Some (join_order_items (remote w') order) /\
    o_order_items (join_order_items (remote w') order) = Some rows.
Proof.
  intros Hw Hne Hall Hins Hitems Hfresh Hfk Hsel.
  destruct (createOrder_writes_rows sa pd e w items Hw Hne Hall Hins Hitems)
    as (rows & Hrun & Hp & Hq & Ho & _).
  set (order := order_row sa pd e (assembled e w items)) in *.
  exists order, rows. eexists. split; [exact Hrun|].
  rewrite !remote_save.
  split; [reflexivity|]. split; [exact Hp|]. split; [exact Hq|].
  assert (Hid : o_id order = new_order_id e) by reflexivity.
  split.
  - unfold getOrder. rewrite Hsel, remote_save.
    cbn [remote orders set_orders set_order_items].
    rewrite map_app, filter_app.
    rewrite filter_none.
    + simpl. rewrite String.eqb_refl. reflexivity.
    + intros o Ho'. apply in_map_iff in Ho' as (row & <- & Hrow).
      simpl. apply String.eqb_neq. intros Heq.
      apply Hfresh. rewrite <- Heq. now apply in_map.
  - simpl. f_equal. rewrite filter_app.
    rewrite filter_none.
    + simpl. apply filter_all. intros row Hrow.
      apply String.eqb_eq. rewrite Forall_forall in Ho. now apply Ho.
    + intros line Hline. apply String.eqb_neq. intros Heq.
      apply Hfresh. rewrite <- Heq. now apply Hfk.
Qed.

Lemma createOrder_then_getOrder_witness :
  exists order rows w',
    createOrder Sample.address Sample.payment Sample.env
      (mkWorld (Some (JsonText (JCart [Sample.line "a" "p1" 2%float]))) (remote Sample.shop)) =
    (Ok order, w') /\
    map oi_quantity rows = [Some 2%float] /\
    option_map o_order_items (getOrder (o_id order) Sample.env w') = Some (Some rows).
Proof.
  destruct (createOrder_then_getOrder Sample.address Sample.payment Sample.env Sample.env
              (mkWorld (Some (JsonText (JCart [Sample.line "a" "p1" 2%float])))
                 (remote Sample.shop))
              [Sample.line "a" "p1" 2%float] eq_refl ltac:(discriminate))
    as (order & rows & w' & Hrun & _ & _ & Hq & Hget & Hlines).
  - intros item [<- | []]; vm_compute; discriminate.
  - reflexivity.
  - reflexivity.
  - simpl. intuition discriminate.
  - intros line [<- | []]. simpl. auto.
  - reflexivity.
  - exists order, rows, w'. split; [exact Hrun|]. split; [exact Hq|].
    rewrite Hget. simpl. simpl in Hlines. rewrite Hlines. reflexivity.
Defined.

(** ** Notifications *)

(** A completed [createOrder] returns the row of the order as the database
    stored it, which carries no lines. *)
Lemma createOrder_ok_inv (sa : ShippingAddress) (pd : PaymentDetails)
  (e : Env) (w w' : World) (order : Order) :
  createOrder sa pd e w = (Ok order, w') ->
  exists items,
    stored_cart w items /\ items <> [] /\
    order = order_row sa pd e (assembled e w items) /\
    notifications (remote w') = notifications (remote w).
Proof.
  intros Hrun.
  destruct (getCartFromStorage_total w) as [v Hv].
  assert (Hcases : (exists items, v = JCart items) \/ (forall items, v <> JCart items)).
  { destruct v; try (right; discriminate). left; eauto. }
  destruct Hcases as [[items ->] | Hnot].
  - destruct items as [|item items].
    + rewrite (createOrder_empty sa pd e w Hv) in Hrun; discriminate.
    + exists (item :: items). split; [exact Hv|]. split; [discriminate|].
      rewrite (createOrder_nonempty sa pd e w (item :: items) Hv) in Hrun
        by discriminate.
      destruct (order_insert_fails e); [discriminate|].
      cbv zeta in Hrun.
      destruct (map_result _ _); [|discriminate].
      pose proof (f_equal snd Hrun) as Hw'. cbn [snd] in Hw'. subst w'.
      rewrite remote_save.
      split; [congruence|].
      destruct (items_insert_fails e); reflexivity.
  - destruct (createOrder_not_array sa pd e w v Hv Hnot) as [err Herr].
    rewrite Herr in Hrun; discriminate.
Qed.

(** X17: The order [createOrder] returns has no [order_items]: a notification
    sent for it records the order number and the total but no list of
    items.  Sending it adds one pending notification and touches neither
    the orders, the order lines nor the local slot. *)
Theorem notification_of_created_order (sa : ShippingAddress) (pd : PaymentDetails)
  (e e' : Env) (w w' : World) (order : Order) (email : string)
  (userId : option string) :
  createOrder sa pd e w = (Ok order, w') ->
  notification_insert_fails e' = false ->
  exists row w'',
    sendOrderNotification email order userId e' w' = (Ok tt, w'') /\
    notifications (remote w'') = notifications (remote w) ++ [row] /\
    n_content_items row = None /\
    n_content_total row = PrimFloat.add (o_subtotal order) (o_shipping_cost order) /\
    n_order_id row = new_order_id e /\
    n_status row = n_pending /\
    orders (remote w'') = orders (remote w') /\
    order_items (remote w'') = order_items (remote w') /\
    slot w'' = slot w'.
Proof.
  intros Hrun Hok.
  destruct (createOrder_ok_inv sa pd e w w' order Hrun)
    as (items & Hw & Hne & -> & Hnotif).
  unfold sendOrderNotification, notifications_insert. rewrite Hok.
  eexists; eexists; split; [reflexivity|].
  simpl. rewrite Hnotif.
  repeat split.
Qed.

Lemma notification_of_created_order_witness :
  exists order w' row w'',
    createOrder Sample.address Sample.payment Sample.env
      (Sample.holding [Sample.line "a" "p1" 2%float]) = (Ok order, w') /\
    sendOrderNotification "asha@example.com" order None Sample.env w' = (Ok tt, w'') /\
    notifications (remote w'') = [row] /\
    n_content_items row = None /\
    n_order_id row = "o1".
Proof.
  destruct (createOrder Sample.address Sample.payment Sample.env
              (Sample.holding [Sample.line "a" "p1" 2%float])) as [[order|err] w'] eqn:Hrun;
    [|exfalso; lazy in Hrun; discriminate Hrun].
  destruct (notification_of_created_order Sample.address Sample.payment Sample.env
              Sample.env _ w' order "asha@example.com" None Hrun eq_refl)
    as (row & w'' & Hsend & Hn & Hitems & _ & Hid & _).
  exists order, w', row, w''.
  split; [reflexivity|]. split; [exact Hsend|]. split; [exact Hn|].
  split; [exact Hitems | exact Hid].
Defined.

(** X18: A notification sent for an order read back with [getOrder] lists one
    entry per line of the order, with the name, quantity and price of the
    line.  When the insert of the notification is refused,
    [sendOrderNotification] raises "Failed to record notification" and
    records nothing. *)
Theorem notification_of_read_order (orderId email : string)
  (userId : option string) (e e' : Env) (w : World) (order : Order) :
  getOrder orderId e w = Some order ->
  (notification_insert_fails e' = true ->
   sendOrderNotification email order userId e' w =
   (Throw (Error "Failed to record notification"), w)) /\
  (notification_insert_fails e' = false ->
   exists row entries w',
     sendOrderNotification email order userId e' w = (Ok tt, w') /\
     notifications (remote w') = notifications (remote w) ++ [row] /\
     n_order_id row = orderId /\
     n_content_total row = o_total order /\
     n_content_items row = Some entries /\
     map ni_name entries = map oi_product_name (lines_of (remote w) orderId) /\
     map ni_qty entries = map oi_quantity (lines_of (remote w) orderId) /\
     map ni_price entries = map oi_price (lines_of (remote w) orderId)).
Proof.
  intros Hget.
  destruct (proj1 (getOrder_lookup orderId e w) order Hget) as (Hid & Hlines & _).
  unfold sendOrderNotification, notifications_insert.
  split; intros ->; [reflexivity|].
  eexists; eexists; eexists; split; [reflexivity|].
  simpl. rewrite Hlines, Hid. simpl.
  split; [reflexivity|]. split; [reflexivity|]. split; [reflexivity|].
  split; [reflexivity|].
  rewrite !map_map. repeat split.
Qed.

Lemma notification_of_read_order_witness :
  exists row w',
    sendOrderNotification "asha@example.com" (Sample.read_o8) None Sample.env Sample.shop =
    (Ok tt, w') /\
    notifications (remote w') = [row] /\
    option_map (map ni_qty) (n_content_items row) = Some [Some 2%float].
Proof.
  destruct (proj2 (notification_of_read_order "o8" "asha@example.com" None Sample.env
                     Sample.env Sample.shop Sample.read_o8 eq_refl) eq_refl)
    as (row & entries & w' & Hsend & Hn & _ & _ & Hitems & _ & Hqty & _).
  exists row, w'. split; [exact Hsend|]. split; [exact Hn|].
  rewrite Hitems. simpl. rewrite Hqty. reflexivity.
Defined.
